(** * Sequential Flow: task orchestration and storage adapters

    A shallow embedding of the orchestrator source ([unnamed/part_000],
    which [test.js] loads as [lib/edge-functions.cjs]: the [SequentialFlow]
    class and its [InMemoryStorage]) and of the adapters of
    [lib/storage.cjs], together with the properties of the specification
    that concern them.

    Conventions of the embedding.
    - JavaScript values that the orchestrator only tests for truthiness,
      copies or hands on are values of [JsVal]; a property read that finds
      nothing yields [JUndefined], so "absent" and "undefined" coincide.
      Ids, names and code are strings, as in the task data model.
    - An [async] function is run to completion by its caller ([await]); a
      rejected promise is an abrupt completion [Throw].  Thrown values are
      [Error] instances, represented by their [message].
    - [Date] values are represented by the millisecond count that
      [toISOString] renders; the clock never runs backwards, and its
      readings, also two hours on, are valid times.  A number is an exact
      fraction, or NaN or an infinity: the binary64 rounding of
      [Date.now() + ttl] is left out, which matters for no whole number of
      milliseconds.  [new Date(v).toISOString()] raises a RangeError when
      [v] is not finite or lies outside the range of [Date].
    - The execution engine (package [sequential-fetch]) is external: every
      statement quantifies over the behaviour of the instance that a call
      creates.  Constructing and disposing an instance do not raise.
    - Every call of the engine and of the storage adapter is recorded in a
      chronological trace, on which the statements about calls are made. *)

From Stdlib Require Import ZArith Lia.
From stdpp Require Import base option list strings pretty gmap fin_maps.

Local Open Scope Z_scope.

(** ** JavaScript values *)

#[local] Set Warnings "-register-all".

Inductive JsVal : Type :=
  | JUndefined
  | JNull
  | JBool (b : bool)
  | JNum (n : Z)
  | JNaN
  | JStr (s : string)
  | JObj (fields : list (string * JsVal)).

(** [ToBoolean]: the falsy values are undefined, null, false, 0, NaN and
    the empty string. *)
Definition truthy (v : JsVal) : bool :=
  match v with
  | JUndefined | JNull | JNaN => false
  | JBool b => b
  | JNum n => negb (Z.eqb n 0)
  | JStr s => negb (String.eqb s "")
  | JObj _ => true
  end.

(** [a || b] *)
Definition js_or (a b : JsVal) : JsVal := if truthy a then a else b.

(** [s || d] for a string-typed optional property [s]. *)
Definition str_or (s : option string) (d : string) : string :=
  match s with
  | Some x => if String.eqb x "" then d else x
  | None => d
  end.

Definition nullish (v : JsVal) : bool :=
  match v with
  | JUndefined | JNull => true
  | _ => false
  end.

Fixpoint assoc (k : string) (fields : list (string * JsVal)) : JsVal :=
  match fields with
  | [] => JUndefined
  | (k', v) :: rest => if String.eqb k k' then v else assoc k rest
  end.

(** An [Error] instance, as far as the orchestrator looks at it. *)
Record JsError : Type := mkError { message : string }.

(** Completion of a call: a value, or a raised failure. *)
Inductive Completion (A : Type) : Type :=
  | Normal (a : A)
  | Throw (e : JsError).
Arguments Normal {A} a.
Arguments Throw {A} e.

Definition js_typeof_nullish (v : JsVal) : string :=
  match v with
  | JNull => "null"
  | _ => "undefined"
  end.

(** [v.k]: reading a property of undefined or null raises a TypeError (the
    text is V8's); primitives have no own property [k]. *)
Definition get_prop (v : JsVal) (k : string) : Completion JsVal :=
  match v with
  | JUndefined | JNull =>
      Throw (mkError ("Cannot read properties of " +:+ js_typeof_nullish v
                        +:+ " (reading '" +:+ k +:+ "')"))
  | JObj fields => Normal (assoc k fields)
  | _ => Normal JUndefined
  end.

(** ** Numbers and dates *)

(** A JavaScript number: a fraction [numerator / denominator], NaN, or an
    infinity. *)
Inductive JsNumber : Type :=
  | Finite (numerator : Z) (denominator : positive)
  | NotANumber
  | PosInfinity
  | NegInfinity.

(** A whole number. *)
Definition whole (z : Z) : JsNumber := Finite z 1.

(** The largest time value of a [Date], in milliseconds either side of the
    epoch. *)
Definition max_time : Z := 8640000000000000.

(** The time value of [new Date(now + n)] for the clock reading [now]:
    [TimeClip] answers no time for a sum that is not finite or exceeds
    [max_time] in magnitude, and cuts off the fraction of any other. *)
Definition Date_plus (now : Z) (n : JsNumber) : option Z :=
  match n with
  | Finite numerator denominator =>
      let d := Z.pos denominator in
      let sum := now * d + numerator in
      if Z.abs sum <=? max_time * d then Some (Z.quot sum d) else None
  | NotANumber | PosInfinity | NegInfinity => None
  end.

(** [date.toISOString()]: a RangeError for a date without a time value
    (the text is V8's). *)
Definition toISOString (time : option Z) : Completion Z :=
  match time with
  | Some t => Normal t
  | None => Throw (mkError "Invalid time value")
  end.

(** ** The task entity *)

Module Status.
Inductive t : Type := running | paused | completed | error.

Definition eqb (a b : t) : bool :=
  match a, b with
  | running, running | paused, paused
  | completed, completed | error, error => true
  | _, _ => false
  end.
End Status.

Module Task.
Record t : Type := mk {
  id : string;
  name : string;
  code : string;
  status : Status.t;
  result : JsVal;
  error : JsVal;
  vmState : JsVal;
  pausedState : JsVal;
  fetchRequest : JsVal;
  createdAt : option Z;
  updatedAt : option Z;
  expiresAt : option Z
}.
End Task.

(** ** Storage adapters *)

(** The capability set [save] / [load] / [delete] over an adapter state
    [S].  Any of the three may raise, and may have changed the state when
    it does.  [load] answers [None] for a null-equivalent. *)
Record StorageAdapter (S : Type) : Type := mkAdapter {
  adapter_save : Task.t -> S -> Completion unit * S;
  adapter_load : string -> S -> Completion (option Task.t) * S;
  adapter_delete : string -> S -> Completion unit * S
}.
Arguments adapter_save {S} _ _ _.
Arguments adapter_load {S} _ _ _.
Arguments adapter_delete {S} _ _ _.

(** [class InMemoryStorage]: the same three methods in the orchestrator
    source and in [lib/storage.cjs]; the latter adds [list] and [clear]. *)
Module InMemoryStorage.
Abbreviation t := (gmap string Task.t).

(** [constructor() { this.storage = new Map(); }] *)
Definition new : t := ∅.

Definition save (task : Task.t) (storage : t) : t :=
  <[Task.id task := task]> storage.

Definition load (taskId : string) (storage : t) : option Task.t :=
  storage !! taskId.

Definition delete (taskId : string) (storage : t) : t :=
  base.delete taskId storage.

Definition clear (storage : t) : t := ∅.

Definition adapter : StorageAdapter t :=
  {| adapter_save := fun task s => (Normal tt, save task s);
     adapter_load := fun taskId s => (Normal (load taskId s), s);
     adapter_delete := fun taskId s => (Normal tt, delete taskId s) |}.
End InMemoryStorage.

(** [class CustomStorage] of [lib/storage.cjs]: every method raises. *)
Module CustomStorage.
Definition adapter : StorageAdapter unit :=
  {| adapter_save := fun _ s =>
       (Throw (mkError "save() method must be implemented"), s);
     adapter_load := fun _ s =>
       (Throw (mkError "load() method must be implemented"), s);
     adapter_delete := fun _ s =>
       (Throw (mkError "delete() method must be implemented"), s) |}.
End CustomStorage.

(** ** The execution engine (consumed contract) *)

(** The discriminated result of [executeCode] and [resumeExecution]. *)
Module EngineResult.
Record t : Type := mk {
  type : JsVal;
  result : JsVal;
  error : JsVal;
  state : JsVal;
  fetchRequest : JsVal
}.
End EngineResult.

(** The behaviour of one engine instance.  [executeCode] and
    [resumeExecution] answer the result together with the content of the
    instance's [paused] slot after the call; [resumeExecution] sees what the
    orchestrator wrote into that slot beforehand ([None]: left as
    constructed).  [dispose] releases resources and does not raise. *)
Module SequentialFetchVM.
Record t : Type := mk {
  initialize : Completion unit;
  executeCode : string -> Completion (EngineResult.t * JsVal);
  resumeExecution :
    option JsVal -> JsVal -> JsVal -> Completion (EngineResult.t * JsVal)
}.
End SequentialFetchVM.

(** ** Observable events and the world a call runs in *)

Inductive Event : Type :=
  | EvConstruct
  | EvInitialize
  | EvExecuteCode (code : string)
  | EvSetPaused (paused : JsVal)
  | EvResumeExecution (vmState : JsVal) (response : JsVal)
  | EvDispose
  | EvSave (task : Task.t)
  | EvLoad (taskId : string)
  | EvDelete (taskId : string).

(** [clock] is the value of the next [Date.now()]; each read lets it
    advance by the next entry of [ticks].  [entropy] feeds
    [Math.random().toString(36).slice(2)].  [trace] is chronological. *)
Record World (S : Type) : Type := mkWorld {
  store : S;
  clock : Z;
  ticks : list N;
  entropy : list string;
  trace : list Event
}.
Arguments mkWorld {S} _ _ _ _ _.
Arguments store {S} _.
Arguments clock {S} _.
Arguments ticks {S} _.
Arguments entropy {S} _.
Arguments trace {S} _.

Definition M (S A : Type) : Type := World S -> Completion A * World S.

Definition ret {S A} (a : A) : M S A := fun w => (Normal a, w).

Definition throw {S A} (e : JsError) : M S A := fun w => (Throw e, w).

Definition bind {S A B} (m : M S A) (k : A -> M S B) : M S B :=
  fun w =>
    match m w with
    | (Normal a, w') => k a w'
    | (Throw e, w') => (Throw e, w')
    end.

Notation "'let*' x ':=' m 'in' k" := (bind m (fun x => k))
  (at level 10, x name, m at level 100, k at level 200).

Definition lift {S A} (c : Completion A) : M S A := fun w => (c, w).

Definition emit {S} (ev : Event) : M S unit :=
  fun w => (Normal tt,
            mkWorld (store w) (clock w) (ticks w) (entropy w) (trace w ++ [ev])).

(** [try { body } catch (error) { handler } finally { finalizer }] *)
Definition try_catch_finally {S A}
    (body : M S A) (handler : JsError -> M S A) (finalizer : M S unit) : M S A :=
  fun w =>
    let '(c1, w1) := body w in
    let '(c2, w2) := match c1 with
                     | Normal a => (Normal a, w1)
                     | Throw e => handler e w1
                     end in
    let '(c3, w3) := finalizer w2 in
    (match c3 with Normal _ => c2 | Throw e => Throw e end, w3).

(** [Date.now()] and [new Date()] *)
Definition Date_now {S} : M S Z :=
  fun w => (Normal (clock w),
            mkWorld (store w) (clock w + Z.of_N (hd 0%N (ticks w)))
                    (tl (ticks w)) (entropy w) (trace w)).

(** [Math.random().toString(36).slice(2)] *)
Definition Math_random_base36 {S} : M S string :=
  fun w => (Normal (hd "" (entropy w)),
            mkWorld (store w) (clock w) (ticks w) (tl (entropy w)) (trace w)).

(** [v === s] for a string literal [s] *)
Definition strict_eq_str (v : JsVal) (s : string) : bool :=
  match v with
  | JStr x => String.eqb x s
  | _ => false
  end.

(** ** Requests and options *)

Module ExecuteRequest.
Record t : Type := mk {
  id : option string;
  name : option string;
  code : string
}.
End ExecuteRequest.

(** [None] stands for an omitted option, which takes its default. *)
Module ExecuteOptions.
Record t : Type := mk {
  saveToStorage : option bool;
  ttl : option JsNumber
}.
End ExecuteOptions.

Module ResumeRequest.
Record t : Type := mk {
  taskId : string;
  vmState : JsVal;
  pausedState : JsVal;
  originalCode : option string;
  fetchResponse : JsVal
}.
End ResumeRequest.

(** ** The orchestrator *)

Module SequentialFlow.
Section WithStorage.

(** [storage] is the adapter picked by the options destructuring:
    [options.storage], or [defaultStorage] when it is omitted. *)
Context {S : Type} (storage : StorageAdapter S).

(** [await storage.save(task)], [await storage.load(taskId)] and
    [await storage.delete(taskId)], each recorded in the trace. *)
Definition storage_save (task : Task.t) : M S unit :=
  let* _ := emit (EvSave task) in
  fun w =>
    let '(c, s) := adapter_save storage task (store w) in
    (c, mkWorld s (clock w) (ticks w) (entropy w) (trace w)).

Definition storage_load (taskId : string) : M S (option Task.t) :=
  let* _ := emit (EvLoad taskId) in
  fun w =>
    let '(c, s) := adapter_load storage taskId (store w) in
    (c, mkWorld s (clock w) (ticks w) (entropy w) (trace w)).

Definition storage_delete (taskId : string) : M S unit :=
  let* _ := emit (EvDelete taskId) in
  fun w =>
    let '(c, s) := adapter_delete storage taskId (store w) in
    (c, mkWorld s (clock w) (ticks w) (entropy w) (trace w)).

(** [await vm.initialize()], [await vm.executeCode(code)] and
    [await vm.resumeExecution(vmState, response)], each recorded in the
    trace. *)
Definition vm_initialize (vm : SequentialFetchVM.t) : M S unit :=
  let* _ := emit EvInitialize in
  lift (SequentialFetchVM.initialize vm).

Definition vm_executeCode (vm : SequentialFetchVM.t) (code : string)
    : M S (EngineResult.t * JsVal) :=
  let* _ := emit (EvExecuteCode code) in
  lift (SequentialFetchVM.executeCode vm code).

Definition vm_resumeExecution (vm : SequentialFetchVM.t)
    (slot : option JsVal) (vmState response : JsVal)
    : M S (EngineResult.t * JsVal) :=
  let* _ := emit (EvResumeExecution vmState response) in
  lift (SequentialFetchVM.resumeExecution vm slot vmState response).

(** [result.type === 'pause' ? 'paused'
      : result.type === 'complete' ? 'completed' : 'error'] *)
Definition status_of (type : JsVal) : Status.t :=
  if strict_eq_str type "pause" then Status.paused
  else if strict_eq_str type "complete" then Status.completed
  else Status.error.

(** [result.type === 'pause' ? vm.paused : null] *)
Definition pausedState_of (type paused : JsVal) : JsVal :=
  if strict_eq_str type "pause" then paused else JNull.

(** [`task-${Date.now()}-${Math.random().toString(36).slice(2)}`] *)
Definition generate_id : M S string :=
  let* now := Date_now in
  let* r := Math_random_base36 in
  ret ("task-" +:+ pretty now +:+ "-" +:+ r).

Definition default_ttl : Z := 2 * 60 * 60 * 1000.

(** [static async execute(request, options = {})].  The engine instance
    that [new SequentialFetchVM()] creates behaves as [vm].  The object
    literals read the clock for [createdAt], read it again for
    [expiresAt], and raise there when [Date.now() + ttl] is no valid
    time. *)
Definition execute (vm : SequentialFetchVM.t)
    (request : ExecuteRequest.t) (options : ExecuteOptions.t) : M S Task.t :=
  let saveToStorage := default true (ExecuteOptions.saveToStorage options) in
  let ttl := default (whole default_ttl) (ExecuteOptions.ttl options) in
  let* taskId :=
    match ExecuteRequest.id request with
    | Some i => if String.eqb i "" then generate_id else ret i
    | None => generate_id
    end in
  let* _ := emit EvConstruct in
  try_catch_finally
    (let* _ := vm_initialize vm in
     let* r := vm_executeCode vm (ExecuteRequest.code request) in
     let '(result, paused) := r in
     let* created := Date_now in
     let* now := Date_now in
     let* expires := lift (toISOString (Date_plus now ttl)) in
     let task :=
       {| Task.id := taskId;
          Task.name := str_or (ExecuteRequest.name request) taskId;
          Task.code := ExecuteRequest.code request;
          Task.status := status_of (EngineResult.type result);
          Task.result := EngineResult.result result;
          Task.error := EngineResult.error result;
          Task.vmState := EngineResult.state result;
          Task.pausedState := pausedState_of (EngineResult.type result) paused;
          Task.fetchRequest := EngineResult.fetchRequest result;
          Task.createdAt := Some created;
          Task.updatedAt := None;
          Task.expiresAt := Some expires |} in
     let* _ :=
       if saveToStorage && Status.eqb (Task.status task) Status.paused
       then storage_save task
       else ret tt in
     ret task)
    (fun error =>
     let* created := Date_now in
     let* now := Date_now in
     let* expires := lift (toISOString (Date_plus now ttl)) in
     ret {| Task.id := taskId;
            Task.name := str_or (ExecuteRequest.name request) taskId;
            Task.code := ExecuteRequest.code request;
            Task.status := Status.error;
            Task.result := JUndefined;
            Task.error := JStr (message error);
            Task.vmState := JUndefined;
            Task.pausedState := JUndefined;
            Task.fetchRequest := JUndefined;
            Task.createdAt := Some created;
            Task.updatedAt := None;
            Task.expiresAt := Some expires |})
    (emit EvDispose).

(** [static async resume(request, options = {})].  A stored task is an
    object, hence truthy: [!storedTask] holds exactly for a
    null-equivalent. *)
Definition resume (vm : SequentialFetchVM.t) (request : ResumeRequest.t)
    : M S Task.t :=
  let taskId := ResumeRequest.taskId request in
  let vmState := ResumeRequest.vmState request in
  let pausedState := ResumeRequest.pausedState request in
  let originalCode := ResumeRequest.originalCode request in
  let fetchResponse := ResumeRequest.fetchResponse request in
  let* loaded := storage_load taskId in
  match loaded with
  | None => throw (mkError ("Task " +:+ taskId +:+ " not found in storage"))
  | Some storedTask =>
    let* _ := emit EvConstruct in
    try_catch_finally
      (let* _ := vm_initialize vm in
       let restored := js_or pausedState (Task.pausedState storedTask) in
       let* slot :=
         if truthy restored
         then let* _ := emit (EvSetPaused restored) in ret (Some restored)
         else ret None in
       let* data := lift (get_prop fetchResponse "data") in
       let* r :=
         vm_resumeExecution vm slot vmState (js_or data fetchResponse) in
       let '(result, paused) := r in
       let* updated := Date_now in
       let* now := Date_now in
       let task :=
         {| Task.id := taskId;
            Task.name := Task.name storedTask;
            Task.code := str_or originalCode (Task.code storedTask);
            Task.status := status_of (EngineResult.type result);
            Task.result := EngineResult.result result;
            Task.error := EngineResult.error result;
            Task.vmState := EngineResult.state result;
            Task.pausedState :=
              pausedState_of (EngineResult.type result) paused;
            Task.fetchRequest := EngineResult.fetchRequest result;
            Task.createdAt := None;
            Task.updatedAt := Some updated;
            Task.expiresAt := Some (now + 2 * 60 * 60 * 1000) |} in
       let* _ :=
         if Status.eqb (Task.status task) Status.paused
         then storage_save task
         else if Status.eqb (Task.status task) Status.completed
                 || Status.eqb (Task.status task) Status.error
         then storage_delete taskId
         else ret tt in
       ret task)
      (fun error =>
       let* updated := Date_now in
       let* now := Date_now in
       let task :=
         {| Task.id := taskId;
            Task.name := Task.name storedTask;
            Task.code := str_or originalCode (Task.code storedTask);
            Task.status := Status.error;
            Task.result := JUndefined;
            Task.error := JStr (message error);
            Task.vmState := JUndefined;
            Task.pausedState := JUndefined;
            Task.fetchRequest := JUndefined;
            Task.createdAt := None;
            Task.updatedAt := Some updated;
            Task.expiresAt := Some (now + 2 * 60 * 60 * 1000) |} in
       let* _ := storage_delete taskId in
       ret task)
      (emit EvDispose)
  end.

(** [static async getTask(taskId, options = {})] *)
Definition getTask (taskId : string) : M S (option Task.t) :=
  storage_load taskId.

(** [static async deleteTask(taskId, options = {})] *)
Definition deleteTask (taskId : string) : M S unit :=
  storage_delete taskId.

End WithStorage.
End SequentialFlow.

(** ** Sequences of API calls *)

Inductive Call : Type :=
  | CallExecute (vm : SequentialFetchVM.t)
      (request : ExecuteRequest.t) (options : ExecuteOptions.t)
  | CallResume (vm : SequentialFetchVM.t) (request : ResumeRequest.t)
  | CallGetTask (taskId : string)
  | CallDeleteTask (taskId : string).

(** The world after one call, whatever its completion. *)
Definition run_call {S} (storage : StorageAdapter S) (c : Call) (w : World S)
    : World S :=
  match c with
  | CallExecute vm request options =>
      snd (SequentialFlow.execute storage vm request options w)
  | CallResume vm request => snd (SequentialFlow.resume storage vm request w)
  | CallGetTask taskId => snd (SequentialFlow.getTask storage taskId w)
  | CallDeleteTask taskId => snd (SequentialFlow.deleteTask storage taskId w)
  end.

Definition run_calls {S} (storage : StorageAdapter S) (cs : list Call)
    (w : World S) : World S :=
  fold_left (fun w c => run_call storage c w) cs w.

(** ** Observations on traces *)

Definition saved (ev : Event) : option Task.t :=
  match ev with EvSave task => Some task | _ => None end.

Definition deleted (ev : Event) : option string :=
  match ev with EvDelete taskId => Some taskId | _ => None end.

Definition resumed (ev : Event) : option (JsVal * JsVal) :=
  match ev with
  | EvResumeExecution vmState response => Some (vmState, response)
  | _ => None
  end.

Definition is_dispose (ev : Event) : bool :=
  match ev with EvDispose => true | _ => false end.

Definition is_construct (ev : Event) : bool :=
  match ev with EvConstruct => true | _ => false end.

Definition is_storage_event (ev : Event) : bool :=
  match ev with EvSave _ | EvLoad _ | EvDelete _ => true | _ => false end.

(** Tasks passed to [storage.save], ids passed to [storage.delete] and
    argument pairs passed to [vm.resumeExecution], in order. *)
Definition saves (tr : list Event) : list Task.t := omap saved tr.
Definition deletes (tr : list Event) : list string := omap deleted tr.
Definition resumptions (tr : list Event) : list (JsVal * JsVal) :=
  omap resumed tr.

Fixpoint count (p : Event -> bool) (tr : list Event) : nat :=
  match tr with
  | [] => 0
  | ev :: tr' => (if p ev then 1 else 0) + count p tr'
  end.

Definition disposals (tr : list Event) : nat := count is_dispose tr.
Definition constructions (tr : list Event) : nat := count is_construct tr.
Definition storage_calls (tr : list Event) : nat := count is_storage_event tr.

(** ** Predicates used in the statements *)

Definition is_paused (task : Task.t) : Prop :=
  Task.status task = Status.paused.

(** The status-field invariants of the data model, as a decision
    procedure.  "Present" is "not undefined"; "absent/null" is "undefined
    or null". *)
Definition nonempty_message (v : JsVal) : bool :=
  match v with
  | JStr s => negb (String.eqb s "")
  | _ => false
  end.

Definition field_invariants (status : Status.t)
    (result error vmState pausedState fetchRequest : JsVal) : bool :=
  match status with
  | Status.paused =>
      negb (nullish vmState) && negb (nullish pausedState)
      && negb (nullish fetchRequest)
  | Status.completed =>
      negb (match result with JUndefined => true | _ => false end)
      && nullish error && nullish vmState && nullish pausedState
      && nullish fetchRequest
  | Status.error =>
      nonempty_message error
      && nullish result && nullish vmState && nullish pausedState
      && nullish fetchRequest
  | Status.running => true
  end.

Definition task_invariants (task : Task.t) : bool :=
  field_invariants (Task.status task) (Task.result task) (Task.error task)
    (Task.vmState task) (Task.pausedState task) (Task.fetchRequest task).

(** The same invariants read on what the engine answered: its result and
    the content of its [paused] slot. *)
Definition engine_answer_invariants (r : EngineResult.t) (paused : JsVal)
    : bool :=
  if strict_eq_str (EngineResult.type r) "pause" then
    negb (nullish (EngineResult.state r)) && negb (nullish paused)
    && negb (nullish (EngineResult.fetchRequest r))
  else if strict_eq_str (EngineResult.type r) "complete" then
    negb (match EngineResult.result r with JUndefined => true | _ => false end)
    && nullish (EngineResult.error r) && nullish (EngineResult.state r)
    && nullish (EngineResult.fetchRequest r)
  else
    nonempty_message (EngineResult.error r)
    && nullish (EngineResult.result r) && nullish (EngineResult.state r)
    && nullish (EngineResult.fetchRequest r).

(** A task assembled from an engine answer: every execution field is the
    engine's, copied. *)
Definition built_from_answer (task : Task.t) (r : EngineResult.t)
    (paused : JsVal) : Prop :=
  Task.status task = SequentialFlow.status_of (EngineResult.type r)
  /\ Task.result task = EngineResult.result r
  /\ Task.error task = EngineResult.error r
  /\ Task.vmState task = EngineResult.state r
  /\ Task.pausedState task
     = SequentialFlow.pausedState_of (EngineResult.type r) paused
  /\ Task.fetchRequest task = EngineResult.fetchRequest r.

(** A task assembled by the [catch] handler from the failure [e]. *)
Definition built_by_handler (task : Task.t) (e : JsError) : Prop :=
  Task.status task = Status.error
  /\ Task.error task = JStr (message e)
  /\ Task.result task = JUndefined
  /\ Task.vmState task = JUndefined
  /\ Task.pausedState task = JUndefined
  /\ Task.fetchRequest task = JUndefined.

(** The clock reading after [k] earlier readings. *)
Fixpoint reading (k : nat) (now : Z) (ticks : list N) : Z :=
  match k with
  | O => now
  | S k' => reading k' (now + Z.of_N (hd 0%N ticks)) (tl ticks)
  end.

Definition nth_reading {S} (k : nat) (w : World S) : Z :=
  reading k (clock w) (ticks w).

(** Whether [execute] takes the request's id: a non-empty string. *)
Definition id_given (request : ExecuteRequest.t) : bool :=
  match ExecuteRequest.id request with
  | Some i => negb (String.eqb i "")
  | None => false
  end.

(** The [ttl] an [execute] call works with. *)
Definition ttl_of (options : ExecuteOptions.t) : JsNumber :=
  default (whole SequentialFlow.default_ttl) (ExecuteOptions.ttl options).

(** The number of clock readings that precede the one [execute] takes for
    [expiresAt] in its [try] block: one for [createdAt], and one before it
    when the id is generated.  The handler's reading for [expiresAt] comes
    two readings later when the [try] block got as far as its own, and is
    this same reading when the engine raised. *)
Definition expiry_index (request : ExecuteRequest.t) : nat :=
  if id_given request then 1 else 2.

(** The time value of [expiresAt] when it is taken at the [k]-th
    reading. *)
Definition expiry_at {S} (k : nat) (options : ExecuteOptions.t) (w : World S)
    : option Z :=
  Date_plus (nth_reading k w) (ttl_of options).

(** The RangeError of [toISOString]. *)
Definition invalid_time : JsError := mkError "Invalid time value".

(** [1 <= n] for a number. *)
Definition at_least_one (n : JsNumber) : Prop :=
  match n with
  | Finite numerator denominator => Z.pos denominator <= numerator
  | _ => False
  end.

(** What [resume] completes with once its handler has run for the failure
    [e] and the handler's [delete] has completed with [c]. *)
Definition handled (c : Completion unit) (e : JsError)
    (result : Completion Task.t) : Prop :=
  match c with
  | Normal _ => exists t, result = Normal t /\ built_by_handler t e
  | Throw e' => result = Throw e'
  end.

(** The adapter states reachable from [s] by loads, deletes and saves of
    paused tasks. *)
Inductive evolves {S} (storage : StorageAdapter S) (s : S) : S -> Prop :=
  | evolves_refl : evolves storage s s
  | evolves_save s' task :
      evolves storage s s' -> is_paused task ->
      evolves storage s (snd (adapter_save storage task s'))
  | evolves_load s' taskId :
      evolves storage s s' ->
      evolves storage s (snd (adapter_load storage taskId s'))
  | evolves_delete s' taskId :
      evolves storage s s' ->
      evolves storage s (snd (adapter_delete storage taskId s')).

(** The unwrapping rule for the fetch response, stated on its own: the
    [data] field when it is truthy, else the whole response. *)
Definition unwrapped (fetchResponse : JsVal) : JsVal :=
  match fetchResponse with
  | JObj fields =>
      if truthy (assoc "data" fields) then assoc "data" fields
      else fetchResponse
  | _ => fetchResponse
  end.

(** An adapter none of whose operations raises. *)
Definition reliable {S} (storage : StorageAdapter S) : Prop :=
  (forall task s, fst (adapter_save storage task s) = Normal tt)
  /\ (forall taskId s, exists o, fst (adapter_load storage taskId s) = Normal o)
  /\ (forall taskId s, fst (adapter_delete storage taskId s) = Normal tt).

Definition not_found (taskId : string) : JsError :=
  mkError ("Task " +:+ taskId +:+ " not found in storage").

(** ** The adapters of [lib/storage.cjs] *)

(** A JavaScript [Map] with string keys: entries in insertion order.
    [set] on a present key replaces the value where the entry stands, on an
    absent key appends the entry; [values] iterates in that order. *)
Module JsMap.
Definition t : Type := list (string * Task.t).

Definition empty : t := [].

Fixpoint set (k : string) (v : Task.t) (m : t) : t :=
  match m with
  | [] => [(k, v)]
  | (k', v') :: m' =>
      if String.eqb k k' then (k, v) :: m' else (k', v') :: set k v m'
  end.

Fixpoint get (k : string) (m : t) : option Task.t :=
  match m with
  | [] => None
  | (k', v') :: m' => if String.eqb k k' then Some v' else get k m'
  end.

Fixpoint delete (k : string) (m : t) : t :=
  match m with
  | [] => []
  | (k', v') :: m' =>
      if String.eqb k k' then m' else (k', v') :: delete k m'
  end.

Definition values (m : t) : list Task.t := map snd m.

Definition keys (m : t) : list string := map fst m.

Definition clear (m : t) : t := [].
End JsMap.

Module StorageCjs.

(** [class InMemoryStorage] of [lib/storage.cjs], with [list] and [clear]:
    the [Map] keeps its insertion order. *)
Module InMemoryStorage.
Definition new : JsMap.t := JsMap.empty.

Definition save (task : Task.t) (storage : JsMap.t) : JsMap.t :=
  JsMap.set (Task.id task) task storage.

Definition load (taskId : string) (storage : JsMap.t) : option Task.t :=
  JsMap.get taskId storage.

Definition delete (taskId : string) (storage : JsMap.t) : JsMap.t :=
  JsMap.delete taskId storage.

(** [Array.from(this.storage.values())] *)
Definition list (storage : JsMap.t) : list Task.t := JsMap.values storage.

Definition clear (storage : JsMap.t) : JsMap.t := JsMap.clear storage.

Definition adapter : StorageAdapter JsMap.t :=
  {| adapter_save := fun task s => (Normal tt, save task s);
     adapter_load := fun taskId s => (Normal (load taskId s), s);
     adapter_delete := fun taskId s => (Normal tt, delete taskId s) |}.
End InMemoryStorage.

End StorageCjs.

(** The finite map that a [Map] denotes, and the stores that hold every key
    once. *)
Definition denote (m : JsMap.t) : gmap string Task.t := list_to_map m.

Definition distinct_keys (m : JsMap.t) : Prop := NoDup (JsMap.keys m).

(** The stores a sequence of [save], [delete] and [clear] builds from a new
    one. *)
Inductive StoreOp : Type :=
  | OpSave (task : Task.t)
  | OpDelete (taskId : string)
  | OpClear.

Definition apply_op (m : JsMap.t) (op : StoreOp) : JsMap.t :=
  match op with
  | OpSave task => StorageCjs.InMemoryStorage.save task m
  | OpDelete taskId => StorageCjs.InMemoryStorage.delete taskId m
  | OpClear => StorageCjs.InMemoryStorage.clear m
  end.

Definition apply_op_map (m : gmap string Task.t) (op : StoreOp)
    : gmap string Task.t :=
  match op with
  | OpSave task => InMemoryStorage.save task m
  | OpDelete taskId => InMemoryStorage.delete taskId m
  | OpClear => InMemoryStorage.clear m
  end.

(** Every entry stands under the id of its task. *)
Definition keyed_by_id (m : JsMap.t) : Prop :=
  Forall (fun entry => fst entry = Task.id (snd entry)) m.

(** [Math.ceil(x / d)] for integers [x] and [d > 0]. *)
Definition ceil_div (x d : Z) : Z := - ((- x) / d).

(** [class RedisStorage].  The client is any object with [setex], [get] and
    [del]; [get] answers [None] for a nil reply.  [JSON.stringify] and
    [JSON.parse] are taken as given ([parse] answers [None] for the JSON
    [null]); [now] is the reading of [Date.now()] inside [save]. *)
Module RedisStorage.
Record Client (R : Type) : Type := mkClient {
  setex : string -> Z -> string -> R -> Completion unit * R;
  get : string -> R -> Completion (option string) * R;
  del : string -> R -> Completion unit * R
}.
Arguments setex {R} _ _ _ _ _.
Arguments get {R} _ _ _.
Arguments del {R} _ _ _.

(** [constructor(redisClient, keyPrefix = 'seq-flow:')] *)
Definition default_keyPrefix : string := "seq-flow:".

Section WithClient.
Context {R : Type} (redis : Client R) (keyPrefix : string).
Context (stringify : Task.t -> string).
Context (parse : string -> Completion (option Task.t)).

Definition getKey (taskId : string) : string := keyPrefix +:+ taskId.

Definition save (now : Z) (task : Task.t) (r : R) : Completion unit * R :=
  let key := getKey (Task.id task) in
  let ttl :=
    match Task.expiresAt task with
    | Some expiresAt => ceil_div (expiresAt - now) 1000
    | None => 7200
    end in
  setex redis key ttl (stringify task) r.

Definition load (taskId : string) (r : R)
    : Completion (option Task.t) * R :=
  let key := getKey taskId in
  match get redis key r with
  | (Normal data, r') =>
      (match data with
       | Some d => if String.eqb d "" then Normal None else parse d
       | None => Normal None
       end, r')
  | (Throw e, r') => (Throw e, r')
  end.

Definition delete (taskId : string) (r : R) : Completion unit * R :=
  let key := getKey taskId in
  del redis key r.

End WithClient.
End RedisStorage.

(** The parameter placeholder [?] of a statement text. *)
Definition placeholder : Ascii.ascii :=
  match "?" with
  | String c _ => c
  | EmptyString => Ascii.zero
  end.

(** Number of occurrences of a character in a string. *)
Fixpoint occurrences (c : Ascii.ascii) (s : string) : nat :=
  match s with
  | EmptyString => 0
  | String c' s' => (if Ascii.eqb c c' then 1 else 0) + occurrences c s'
  end.

(** [class SQLStorage].  [query] is the caller's [queryFn]: it receives
    the statement text and the parameters, and answers the rows, or [None]
    for a null-equivalent. *)
Module SQLStorage.
Inductive Param : Type :=
  | PText (s : string)
  | PTime (t : option Z).

Record Row : Type := mkRow { data : string }.

(** [this.tableName = options.tableName || 'sequential_flow_tasks'] *)
Definition tableName_of (option_tableName : option string) : string :=
  str_or option_tableName "sequential_flow_tasks".

Section WithQuery.
Context {Q : Type}.
Context (query : string -> list Param -> Q
                 -> Completion (option (list Row)) * Q).
Context (tableName : string).
Context (stringify : Task.t -> string).
Context (parse : string -> Completion (option Task.t)).

Definition save_sql : string :=
  "
      INSERT INTO " +:+ tableName +:+ " (id, data, created_at, expires_at)
      VALUES (?, ?, ?, ?)
      ON CONFLICT (id) DO UPDATE SET data = ?, expires_at = ?
    ".

Definition save (task : Task.t) (q : Q) : Completion unit * Q :=
  let json := stringify task in
  let sql := save_sql in
  match query sql
          [PText (Task.id task); PText json; PTime (Task.createdAt task);
           PTime (Task.expiresAt task); PText json;
           PTime (Task.expiresAt task)] q with
  | (Normal _, q') => (Normal tt, q')
  | (Throw e, q') => (Throw e, q')
  end.

Definition load_sql : string :=
  "SELECT data FROM " +:+ tableName +:+ " WHERE id = ?".

Definition load (taskId : string) (q : Q) : Completion (option Task.t) * Q :=
  let sql := load_sql in
  match query sql [PText taskId] q with
  | (Normal result, q') =>
      (match result with
       | Some (row :: _) => parse (data row)
       | Some [] | None => Normal None
       end, q')
  | (Throw e, q') => (Throw e, q')
  end.

Definition delete_sql : string :=
  "DELETE FROM " +:+ tableName +:+ " WHERE id = ?".

Definition delete (taskId : string) (q : Q) : Completion unit * Q :=
  let sql := delete_sql in
  match query sql [PText taskId] q with
  | (Normal _, q') => (Normal tt, q')
  | (Throw e, q') => (Throw e, q')
  end.

End WithQuery.
End SQLStorage.

(** ** Further observations on traces and stores *)

(** The calls made to the engine, without the storage calls. *)
Definition engine_events (tr : list Event) : list Event :=
  filter (fun ev => is_storage_event ev = false) tr.

(** The id a storage call is about. *)
Definition event_id (ev : Event) : option string :=
  match ev with
  | EvSave task => Some (Task.id task)
  | EvLoad taskId | EvDelete taskId => Some taskId
  | _ => None
  end.

(** The adapter states reachable from [s] by loads and deletes of [id] and
    saves of tasks whose id is [id]. *)
Inductive evolves_at {S} (storage : StorageAdapter S) (id : string) (s : S)
    : S -> Prop :=
  | evolves_at_refl : evolves_at storage id s s
  | evolves_at_save s' task :
      evolves_at storage id s s' -> Task.id task = id ->
      evolves_at storage id s (snd (adapter_save storage task s'))
  | evolves_at_load s' :
      evolves_at storage id s s' ->
      evolves_at storage id s (snd (adapter_load storage id s'))
  | evolves_at_delete s' :
      evolves_at storage id s s' ->
      evolves_at storage id s (snd (adapter_delete storage id s')).

(** ** Sample engines, tasks and worlds *)

Module Samples.

(** An engine that runs [const x=5; x*2] to completion. *)
Definition vm_complete : SequentialFetchVM.t :=
  {| SequentialFetchVM.initialize := Normal tt;
     SequentialFetchVM.executeCode := fun _ =>
       Normal (EngineResult.mk (JStr "complete") (JNum 10)
                 JUndefined JUndefined JUndefined, JNull);
     SequentialFetchVM.resumeExecution := fun _ _ response =>
       Normal (EngineResult.mk (JStr "complete") response
                 JUndefined JUndefined JUndefined, JNull) |}.

(** An engine that pauses at a fetch, and completes with the response when
    resumed. *)
Definition vm_pause : SequentialFetchVM.t :=
  {| SequentialFetchVM.initialize := Normal tt;
     SequentialFetchVM.executeCode := fun _ =>
       Normal (EngineResult.mk (JStr "pause") JUndefined JUndefined
                 (JObj [("pc", JNum 1)])
                 (JObj [("id", JNum 1); ("url", JStr "u/1")]),
               JObj [("awaiting", JNum 1)]);
     SequentialFetchVM.resumeExecution := fun _ _ response =>
       Normal (EngineResult.mk (JStr "complete") response
                 JUndefined JUndefined JUndefined, JNull) |}.

(** An engine that pauses again on every resumption. *)
Definition vm_pause_again : SequentialFetchVM.t :=
  {| SequentialFetchVM.initialize := Normal tt;
     SequentialFetchVM.executeCode := SequentialFetchVM.executeCode vm_pause;
     SequentialFetchVM.resumeExecution := fun _ _ _ =>
       SequentialFetchVM.executeCode vm_pause "" |}.

(** An engine on which [throw new Error("boom")] raises. *)
Definition vm_boom : SequentialFetchVM.t :=
  {| SequentialFetchVM.initialize := Normal tt;
     SequentialFetchVM.executeCode := fun _ => Throw (mkError "boom");
     SequentialFetchVM.resumeExecution := fun _ _ _ =>
       Throw (mkError "boom") |}.

(** An engine whose [initialize] raises [new Error()], whose message is
    the empty string. *)
Definition vm_silent_failure : SequentialFetchVM.t :=
  {| SequentialFetchVM.initialize := Throw (mkError "");
     SequentialFetchVM.executeCode := fun _ => Throw (mkError "");
     SequentialFetchVM.resumeExecution := fun _ _ _ => Throw (mkError "") |}.

(** An engine that completes and still reports a checkpoint. *)
Definition vm_complete_with_state : SequentialFetchVM.t :=
  {| SequentialFetchVM.initialize := Normal tt;
     SequentialFetchVM.executeCode := fun _ =>
       Normal (EngineResult.mk (JStr "complete") (JNum 10) JUndefined
                 (JObj [("pc", JNum 2)]) JUndefined, JNull);
     SequentialFetchVM.resumeExecution := fun _ _ _ =>
       Normal (EngineResult.mk (JStr "complete") (JNum 10) JUndefined
                 (JObj [("pc", JNum 2)]) JUndefined, JNull) |}.

Definition request (id code : string) : ExecuteRequest.t :=
  {| ExecuteRequest.id := Some id;
     ExecuteRequest.name := None;
     ExecuteRequest.code := code |}.

Definition no_options : ExecuteOptions.t :=
  {| ExecuteOptions.saveToStorage := None; ExecuteOptions.ttl := None |}.

Definition resume_request (taskId : string) (fetchResponse : JsVal)
    : ResumeRequest.t :=
  {| ResumeRequest.taskId := taskId;
     ResumeRequest.vmState := JObj [("pc", JNum 1)];
     ResumeRequest.pausedState := JUndefined;
     ResumeRequest.originalCode := None;
     ResumeRequest.fetchResponse := fetchResponse |}.

Definition alice : JsVal := JObj [("data", JObj [("name", JStr "Alice")])].

Definition task (id : string) (status : Status.t) : Task.t :=
  {| Task.id := id; Task.name := id; Task.code := "fetch('u/1')";
     Task.status := status; Task.result := JUndefined;
     Task.error := JUndefined; Task.vmState := JObj [("pc", JNum 1)];
     Task.pausedState := JObj [("awaiting", JNum 1)];
     Task.fetchRequest := JObj [("url", JStr "u/1")];
     Task.createdAt := Some 1000; Task.updatedAt := None;
     Task.expiresAt := Some 7201000 |}.

(** Task [t2] as [resume] rebuilds it at time 5000 when the engine pauses
    again. *)
Definition t2_again : Task.t :=
  {| Task.id := "t2"; Task.name := "t2"; Task.code := "fetch('u/1')";
     Task.status := Status.paused; Task.result := JUndefined;
     Task.error := JUndefined; Task.vmState := JObj [("pc", JNum 1)];
     Task.pausedState := JObj [("awaiting", JNum 1)];
     Task.fetchRequest := JObj [("id", JNum 1); ("url", JStr "u/1")];
     Task.createdAt := None; Task.updatedAt := Some 5000;
     Task.expiresAt := Some 7205001 |}.

(** Task [t2] as [execute] first builds it at time 1000 on [vm_pause]. *)
Definition t2_first : Task.t :=
  {| Task.id := "t2"; Task.name := "t2"; Task.code := "fetch('u/1')";
     Task.status := Status.paused; Task.result := JUndefined;
     Task.error := JUndefined; Task.vmState := JObj [("pc", JNum 1)];
     Task.pausedState := JObj [("awaiting", JNum 1)];
     Task.fetchRequest := JObj [("id", JNum 1); ("url", JStr "u/1")];
     Task.createdAt := Some 1000; Task.updatedAt := None;
     Task.expiresAt := Some 7201001 |}.

(** Task [t2] as [resume] rebuilds it at time 5000 when the engine
    completes with [{name: 'Alice'}]. *)
Definition t2_done : Task.t :=
  {| Task.id := "t2"; Task.name := "t2"; Task.code := "fetch('u/1')";
     Task.status := Status.completed;
     Task.result := JObj [("name", JStr "Alice")];
     Task.error := JUndefined; Task.vmState := JUndefined;
     Task.pausedState := JNull; Task.fetchRequest := JUndefined;
     Task.createdAt := None; Task.updatedAt := Some 5000;
     Task.expiresAt := Some 7205001 |}.

(** The answer of [vm_pause] at its fetch. *)
Definition pause_answer : EngineResult.t :=
  EngineResult.mk (JStr "pause") JUndefined JUndefined
    (JObj [("pc", JNum 1)]) (JObj [("id", JNum 1); ("url", JStr "u/1")]).

(** A fresh in-memory world at time 1000 whose clock advances by 1 ms
    between reads. *)
Definition w_mem : World InMemoryStorage.t :=
  mkWorld InMemoryStorage.new 1000 [1%N; 1%N; 1%N; 1%N] ["k3x9"] [].

(** The same world with task [t2] waiting in storage. *)
Definition w_mem_t2 : World InMemoryStorage.t :=
  mkWorld (InMemoryStorage.save (task "t2" Status.paused) InMemoryStorage.new)
    5000 [1%N; 1%N; 1%N; 1%N] [] [].

Definition w_custom : World unit := mkWorld tt 1000 [] [] [].

(** An adapter that finds task [t2] and whose [save] and [delete] raise. *)
Definition read_only : StorageAdapter unit :=
  {| adapter_save := fun _ s => (Throw (mkError "read-only store"), s);
     adapter_load := fun taskId s =>
       (Normal (if String.eqb taskId "t2"
                then Some (task "t2" Status.paused) else None), s);
     adapter_delete := fun _ s => (Throw (mkError "read-only store"), s) |}.

(** An adapter that finds task [t2], cannot store anything new and can
    delete. *)
Definition no_space : StorageAdapter unit :=
  {| adapter_save := fun _ s => (Throw (mkError "no space left"), s);
     adapter_load := fun taskId s =>
       (Normal (if String.eqb taskId "t2"
                then Some (task "t2" Status.paused) else None), s);
     adapter_delete := fun _ s => (Normal tt, s) |}.

End Samples.

(** ** Further samples *)

Module AdapterSamples.

(** The world [Samples.w_mem_t2] with the stored [t2] marked completed. *)
Definition w_mem_t2_completed : World InMemoryStorage.t :=
  mkWorld
    (InMemoryStorage.save (Samples.task "t2" Status.completed)
       InMemoryStorage.new)
    5000 [1%N; 1%N; 1%N; 1%N] [] [].

(** Task [t2] as [execute] builds it on [Samples.vm_pause] in the world
    [Samples.w_custom], whose clock stands still. *)
Definition t2_unsaved : Task.t :=
  {| Task.id := "t2"; Task.name := "t2"; Task.code := "fetch('u/1')";
     Task.status := Status.paused; Task.result := JUndefined;
     Task.error := JUndefined; Task.vmState := JObj [("pc", JNum 1)];
     Task.pausedState := JObj [("awaiting", JNum 1)];
     Task.fetchRequest := JObj [("id", JNum 1); ("url", JStr "u/1")];
     Task.createdAt := Some 1000; Task.updatedAt := None;
     Task.expiresAt := Some 7201000 |}.

Definition unsaved_options : ExecuteOptions.t :=
  {| ExecuteOptions.saveToStorage := Some false;
     ExecuteOptions.ttl := None |}.

(** A Redis client that only records the [setex] calls it receives. *)
Definition recording_redis : RedisStorage.Client (list (string * Z * string)) :=
  {| RedisStorage.setex := fun key ttl value r =>
       (Normal tt, r ++ [(key, ttl, value)]);
     RedisStorage.get := fun _ r => (Normal None, r);
     RedisStorage.del := fun _ r => (Normal tt, r) |}.

(** A stand-in for [JSON.stringify]. *)
Definition label (task : Task.t) : string := "{" +:+ Task.id task +:+ "}".

(** A [ttl] of 8.64e15 ms, one of half a millisecond. *)
Definition far_options : ExecuteOptions.t :=
  {| ExecuteOptions.saveToStorage := None;
     ExecuteOptions.ttl := Some (whole 8640000000000000) |}.

Definition half_ms_options : ExecuteOptions.t :=
  {| ExecuteOptions.saveToStorage := None;
     ExecuteOptions.ttl := Some (Finite 1 2) |}.

(** The task of id [t1] that [execute] returns in [Samples.w_custom] for
    an engine that completes and a [ttl] of half a millisecond. *)
Definition t1_half_ms : Task.t :=
  {| Task.id := "t1"; Task.name := "t1"; Task.code := "const x=5; x*2";
     Task.status := Status.completed; Task.result := JNum 10;
     Task.error := JUndefined; Task.vmState := JUndefined;
     Task.pausedState := JNull; Task.fetchRequest := JUndefined;
     Task.createdAt := Some 1000; Task.updatedAt := None;
     Task.expiresAt := Some 1000 |}.

(** An adapter that finds task [t2] and whose [delete] fails on the first
    attempt only; its state tells whether a [delete] was attempted. *)
Definition flaky : StorageAdapter bool :=
  {| adapter_save := fun _ s => (Normal tt, s);
     adapter_load := fun taskId s =>
       (Normal (if String.eqb taskId "t2"
                then Some (Samples.task "t2" Status.paused) else None), s);
     adapter_delete := fun _ (s : bool) =>
       (if s then Normal tt else Throw (mkError "delete failed"), true) |}.

Definition w_flaky : World bool := mkWorld false 1000 [] [] [].

(** A [ttl] that reaches back to just before the first valid time, and a
    world over [CustomStorage] whose clock advances by 1 ms between
    reads. *)
Definition past_options : ExecuteOptions.t :=
  {| ExecuteOptions.saveToStorage := None;
     ExecuteOptions.ttl := Some (whole (-8640000000001002)) |}.

Definition w_custom_ticking : World unit :=
  mkWorld tt 1000 [1%N; 1%N; 1%N; 1%N] [] [].

End AdapterSamples.

(** * Properties *)

(** ** Proof support *)

Ltac unfold_flow :=
  unfold SequentialFlow.execute, SequentialFlow.resume, SequentialFlow.getTask,
    SequentialFlow.deleteTask, SequentialFlow.generate_id,
    SequentialFlow.vm_initialize, SequentialFlow.vm_executeCode,
    SequentialFlow.vm_resumeExecution, SequentialFlow.storage_save,
    SequentialFlow.storage_load, SequentialFlow.storage_delete,
    try_catch_finally, bind, ret, throw, lift, emit, Date_now,
    Math_random_base36, toISOString; cbn.

(** One case split on the next thing the control flow depends on. *)
Ltac flow_step :=
  match goal with
  | |- context [SequentialFetchVM.initialize ?vm] =>
      destruct (SequentialFetchVM.initialize vm) as [[]|?] eqn:?
  | |- context [SequentialFetchVM.executeCode ?vm ?c] =>
      destruct (SequentialFetchVM.executeCode vm c) as [[? ?]|?] eqn:?
  | |- context [SequentialFetchVM.resumeExecution ?vm ?a ?b ?c] =>
      destruct (SequentialFetchVM.resumeExecution vm a b c)
        as [[? ?]|?] eqn:?
  | |- context [adapter_save ?s ?t ?st] =>
      destruct (adapter_save s t st) as [[[]|?] ?] eqn:?
  | |- context [adapter_load ?s ?t ?st] =>
      destruct (adapter_load s t st) as [[[?|]|?] ?] eqn:?
  | |- context [adapter_delete ?s ?t ?st] =>
      destruct (adapter_delete s t st) as [[[]|?] ?] eqn:?
  | |- context [ExecuteRequest.id ?r] =>
      destruct (ExecuteRequest.id r) as [?|] eqn:?
  | |- context [String.eqb ?a ""] =>
      destruct (String.eqb a "") eqn:?
  | |- context [default true ?o] =>
      destruct o as [[]|] eqn:?
  | |- context [SequentialFlow.status_of ?ty] =>
      destruct (SequentialFlow.status_of ty) eqn:?
  | |- context [get_prop ?v ?k] =>
      destruct (get_prop v k) eqn:?
  | |- context [Date_plus ?n ?t] =>
      destruct (Date_plus n t) eqn:?
  | |- context [truthy ?v] =>
      destruct (truthy v) eqn:?
  end; cbn.

Ltac flow_cases :=
  unfold_flow; repeat flow_step; rewrite <- ?app_assoc; cbn.

(** The [expiresAt] of the statement, read where the call computed it. *)
Ltac dates :=
  cbn;
  repeat match goal with
    | H : Date_plus _ _ = _ |- _ => cbn in H; rewrite H; clear H
    end.

(** Push the trace observations through the appended events. *)
Ltac observe :=
  cbn; unfold saves, deletes, resumptions; rewrite ?omap_app; cbn.

(** Name the adapter states by the operations that produced them. *)
Ltac adapter_states :=
  repeat match goal with
  | H : adapter_save ?st ?t ?s = (_, ?s') |- _ =>
      assert (s' = snd (adapter_save st t s)) by (rewrite H; reflexivity);
      clear H; subst s'
  | H : adapter_load ?st ?t ?s = (_, ?s') |- _ =>
      assert (s' = snd (adapter_load st t s)) by (rewrite H; reflexivity);
      clear H; subst s'
  | H : adapter_delete ?st ?t ?s = (_, ?s') |- _ =>
      assert (s' = snd (adapter_delete st t s)) by (rewrite H; reflexivity);
      clear H; subst s'
  end.

(** A contradiction from an adapter operation that raised although the
    adapter is reliable. *)
Ltac unreliable Hs Hl Hd :=
  match goal with
  | H : adapter_save _ ?t ?st = (Throw _, _) |- _ =>
      let X := fresh in
      pose proof (Hs t st) as X; rewrite H in X; discriminate X
  | H : adapter_delete _ ?t ?st = (Throw _, _) |- _ =>
      let X := fresh in
      pose proof (Hd t st) as X; rewrite H in X; discriminate X
  | H : adapter_load _ ?t ?st = (Throw _, _) |- _ =>
      let X := fresh in
      destruct (Hl t st) as [? X]; rewrite H in X; discriminate X
  end.

Lemma count_app p (l1 l2 : list Event) :
  count p (l1 ++ l2) = (count p l1 + count p l2)%nat.
Proof. induction l1 as [|e l1 IH]; cbn; [done|]. rewrite IH. lia. Qed.

Lemma status_of_cases type :
  SequentialFlow.status_of type = Status.paused
  \/ SequentialFlow.status_of type = Status.completed
  \/ SequentialFlow.status_of type = Status.error.
Proof.
  unfold SequentialFlow.status_of.
  destruct (strict_eq_str type "pause"); [auto|].
  destruct (strict_eq_str type "complete"); auto.
Qed.

(** ** Engine lifecycle *)

(** C7.  Engine-instance lifecycle safety.  Every [execute] call, and every
    [resume] call whose load found a task, constructs one engine instance
    and calls its [dispose] exactly once, as the last thing it does,
    whichever way the call completes (returned task or raised failure); a
    [resume] call that stops at the load constructs and disposes none. *)
Theorem C7_dispose_exactly_once :
  (forall S (storage : StorageAdapter S) vm request options w,
     exists evs,
       trace (snd (SequentialFlow.execute storage vm request options w))
         = trace w ++ evs
       /\ constructions evs = 1%nat /\ disposals evs = 1%nat
       /\ last evs = Some EvDispose)
  /\ (forall S (storage : StorageAdapter S) vm request w stored s',
        adapter_load storage (ResumeRequest.taskId request) (store w)
          = (Normal (Some stored), s') ->
        exists evs,
          trace (snd (SequentialFlow.resume storage vm request w))
            = trace w ++ evs
          /\ constructions evs = 1%nat /\ disposals evs = 1%nat
          /\ last evs = Some EvDispose)
  /\ (forall S (storage : StorageAdapter S) vm request w,
        (forall stored,
           fst (adapter_load storage (ResumeRequest.taskId request) (store w))
             <> Normal (Some stored)) ->
        exists evs,
          trace (snd (SequentialFlow.resume storage vm request w))
            = trace w ++ evs
          /\ constructions evs = 0%nat /\ disposals evs = 0%nat).
Proof.
  split; [|split].
  - intros. flow_cases; (eexists; split; [reflexivity|]; cbn; auto).
  - intros * H. unfold_flow. rewrite H. cbn.
    repeat flow_step; rewrite <- ?app_assoc; cbn;
      (eexists; split; [reflexivity|]; cbn; auto).
  - intros * H. unfold_flow.
    destruct (adapter_load storage (ResumeRequest.taskId request) (store w))
      as [[[stored|]|e] s'] eqn:E; cbn.
    + exfalso. apply (H stored). reflexivity.
    + eexists; split; [reflexivity|]; cbn; auto.
    + eexists; split; [reflexivity|]; cbn; auto.
Qed.

(** A resumption on a store that refuses writes: the engine completes, the
    delete raises inside [try], the handler's delete raises again and the
    failure reaches the caller; the engine is disposed once all the same. *)
Lemma C7_dispose_exactly_once_witness :
  fst (SequentialFlow.resume Samples.read_only Samples.vm_pause
         (Samples.resume_request "t2" Samples.alice) Samples.w_custom)
    = Throw (mkError "read-only store")
  /\ exists evs,
       trace (snd (SequentialFlow.resume Samples.read_only Samples.vm_pause
                     (Samples.resume_request "t2" Samples.alice)
                     Samples.w_custom))
         = trace Samples.w_custom ++ evs
       /\ constructions evs = 1%nat /\ disposals evs = 1%nat
       /\ last evs = Some EvDispose.
Proof.
  split; [reflexivity|].
  apply (proj1 (proj2 C7_dispose_exactly_once) unit Samples.read_only
           Samples.vm_pause (Samples.resume_request "t2" Samples.alice)
           Samples.w_custom (Samples.task "t2" Status.paused) tt).
  reflexivity.
Defined.

(** ** The in-memory adapter *)

(** C8.  Round trip and overwrite of the in-memory adapter: loading the id
    of a task just saved yields that task, whatever was stored before; a
    second save under the same id replaces the first record (the store is
    the one a single save of the second task gives, and has not grown), and
    the second record is the one loaded.  The same is observed through the
    adapter's methods and [getTask]. *)
Theorem C8_in_memory_round_trip :
  (forall (t : Task.t) (s : InMemoryStorage.t),
     InMemoryStorage.load (Task.id t) (InMemoryStorage.save t s) = Some t)
  /\ (forall (t1 t2 : Task.t) (s : InMemoryStorage.t),
        Task.id t1 = Task.id t2 ->
        InMemoryStorage.save t2 (InMemoryStorage.save t1 s)
          = InMemoryStorage.save t2 s
        /\ InMemoryStorage.load (Task.id t1)
             (InMemoryStorage.save t2 (InMemoryStorage.save t1 s)) = Some t2
        /\ size (InMemoryStorage.save t2 (InMemoryStorage.save t1 s))
           = size (InMemoryStorage.save t1 s))
  /\ (forall (t : Task.t) (w : World InMemoryStorage.t),
        fst (adapter_save InMemoryStorage.adapter t (store w)) = Normal tt
        /\ forall w',
             store w'
               = snd (adapter_save InMemoryStorage.adapter t (store w)) ->
             fst (SequentialFlow.getTask InMemoryStorage.adapter (Task.id t) w')
               = Normal (Some t)).
Proof.
  unfold InMemoryStorage.load, InMemoryStorage.save.
  split; [|split].
  - intros t s. apply lookup_insert_eq.
  - intros t1 t2 s E. rewrite E. rewrite insert_insert_eq.
    split; [reflexivity|]. split; [apply lookup_insert_eq|].
    rewrite !map_size_insert. reflexivity.
  - intros t w. split; [reflexivity|]. intros w' E.
    unfold_flow. rewrite E. cbn.
    unfold InMemoryStorage.load, InMemoryStorage.save.
    rewrite lookup_insert_eq. reflexivity.
Qed.

(** Task [t2] saved twice, first paused then completed, over a store that
    already holds another task. *)
Lemma C8_in_memory_round_trip_witness :
  InMemoryStorage.load "t2"
    (InMemoryStorage.save (Samples.task "t2" Status.completed)
       (InMemoryStorage.save (Samples.task "t2" Status.paused)
          (InMemoryStorage.save (Samples.task "t1" Status.paused)
             InMemoryStorage.new)))
    = Some (Samples.task "t2" Status.completed).
Proof.
  apply (proj2 (proj1 (proj2 C8_in_memory_round_trip)
                  (Samples.task "t2" Status.paused)
                  (Samples.task "t2" Status.completed)
                  (InMemoryStorage.save (Samples.task "t1" Status.paused)
                     InMemoryStorage.new)
                  eq_refl)).
Defined.

(** C9.  [delete] of the in-memory adapter, and [deleteTask] over it, are
    total and idempotent: for every id, stored or not, the call completes
    normally and leaves the id absent; on an absent id it changes nothing;
    a second call in a row completes normally too and changes nothing
    more. *)
Theorem C9_delete_idempotent_total :
  (forall taskId (s : InMemoryStorage.t),
     fst (adapter_delete InMemoryStorage.adapter taskId s) = Normal tt
     /\ InMemoryStorage.load taskId (InMemoryStorage.delete taskId s) = None
     /\ InMemoryStorage.delete taskId (InMemoryStorage.delete taskId s)
        = InMemoryStorage.delete taskId s)
  /\ (forall taskId (s : InMemoryStorage.t),
        InMemoryStorage.load taskId s = None ->
        InMemoryStorage.delete taskId s = s)
  /\ (forall taskId (w : World InMemoryStorage.t),
        let once := SequentialFlow.deleteTask InMemoryStorage.adapter taskId w in
        let twice :=
          SequentialFlow.deleteTask InMemoryStorage.adapter taskId (snd once) in
        fst once = Normal tt
        /\ store (snd once) = InMemoryStorage.delete taskId (store w)
        /\ InMemoryStorage.load taskId (store (snd once)) = None
        /\ fst twice = Normal tt
        /\ store (snd twice) = store (snd once)).
Proof.
  unfold InMemoryStorage.load, InMemoryStorage.delete.
  split; [|split].
  - intros taskId s. split; [reflexivity|].
    split; [apply lookup_delete_eq|].
    apply delete_id, lookup_delete_eq.
  - intros taskId s H. apply delete_id, H.
  - intros taskId w. cbn.
    unfold InMemoryStorage.load, InMemoryStorage.delete.
    repeat split.
    + apply lookup_delete_eq.
    + apply delete_id, lookup_delete_eq.
Qed.

(** Deleting an id that was never stored. *)
Lemma C9_delete_idempotent_total_witness :
  InMemoryStorage.delete "does-not-exist"
    (InMemoryStorage.save (Samples.task "t2" Status.paused) InMemoryStorage.new)
  = InMemoryStorage.save (Samples.task "t2" Status.paused) InMemoryStorage.new.
Proof.
  apply (proj1 (proj2 C9_delete_idempotent_total) "does-not-exist"
           (InMemoryStorage.save (Samples.task "t2" Status.paused)
              InMemoryStorage.new)).
  reflexivity.
Defined.

(** ** The fetch response handed to the engine *)

Lemma unwrap_agrees fetchResponse data :
  get_prop fetchResponse "data" = Normal data ->
  js_or data fetchResponse = unwrapped fetchResponse.
Proof.
  destruct fetchResponse; cbn; intros H; inversion H; subst; try reflexivity.
Qed.

Lemma get_prop_nullish v k :
  nullish v = false -> exists x, get_prop v k = Normal x.
Proof. destruct v; cbn; intros H; try discriminate; eauto. Qed.

Lemma in_memory_reliable : reliable InMemoryStorage.adapter.
Proof.
  split; [|split].
  - intros task s. reflexivity.
  - intros taskId s. eexists. reflexivity.
  - intros taskId s. reflexivity.
Qed.

Lemma resume_hands_unwrapped S (storage : StorageAdapter S)
    vm request w stored s' t :
  adapter_load storage (ResumeRequest.taskId request) (store w)
    = (Normal (Some stored), s') ->
  SequentialFetchVM.initialize vm = Normal tt ->
  nullish (ResumeRequest.fetchResponse request) = false ->
  fst (SequentialFlow.resume storage vm request w) = Normal t ->
  let restored :=
    js_or (ResumeRequest.pausedState request) (Task.pausedState stored) in
  match SequentialFetchVM.resumeExecution vm
          (if truthy restored then Some restored else None)
          (ResumeRequest.vmState request)
          (unwrapped (ResumeRequest.fetchResponse request)) with
  | Normal (r, paused) =>
      built_from_answer t r paused
      \/ exists e,
           built_by_handler t e
           /\ ((exists task s, fst (adapter_save storage task s) = Throw e)
               \/ (exists s,
                     fst (adapter_delete storage
                            (ResumeRequest.taskId request) s) = Throw e))
  | Throw e => built_by_handler t e
  end.
Proof.
  intros Hl Hi Hn. cbn zeta. unfold_flow. rewrite Hl. cbn. rewrite Hi. cbn.
  destruct (get_prop_nullish _ "data" Hn) as [data Ed]. rewrite Ed. cbn.
  rewrite (unwrap_agrees _ _ Ed).
  destruct (truthy (js_or (ResumeRequest.pausedState request)
                      (Task.pausedState stored))); cbn.
  all: repeat flow_step; intros H; inversion H; subst; clear H.
  all: try (left; unfold built_from_answer; cbn; repeat split; congruence).
  all: try (unfold built_by_handler; cbn; repeat split; fail).
  all: right; eexists; (split; [unfold built_by_handler; cbn; repeat split|]).
  all: match goal with
       | H : adapter_save ?st ?task ?s = (Throw ?e, _) |- _ =>
           left; exists task, s; rewrite H; reflexivity
       | H : adapter_delete ?st ?i ?s = (Throw ?e, _) |- _ =>
           right; exists s; rewrite H; reflexivity
       end.
Qed.

(** C10.  The unwrapping rule.  A [resume] call hands to [resumeExecution],
    at most once, the request's [vmState] and the unwrapped fetch response:
    its [data] field when that is truthy, else the whole response.  It does
    so whenever the task is found, [initialize] succeeds and the response
    is neither undefined nor null, and the task it then returns is made of
    what the engine's [resumeExecution] answers at exactly these arguments
    (or, when the adapter raised, of the adapter's failure); over an
    adapter that does not raise the call returns that task.  A wrapper
    whose [data] is falsy (0, the empty string, false, null) is handed over
    whole. *)
Theorem C10_fetch_response_unwrapping :
  (forall S (storage : StorageAdapter S) vm request w,
     exists new,
       resumptions (trace (snd (SequentialFlow.resume storage vm request w)))
         = resumptions (trace w) ++ new
       /\ (new = []
           \/ new = [(ResumeRequest.vmState request,
                      unwrapped (ResumeRequest.fetchResponse request))]))
  /\ (forall S (storage : StorageAdapter S) vm request w stored s',
        adapter_load storage (ResumeRequest.taskId request) (store w)
          = (Normal (Some stored), s') ->
        SequentialFetchVM.initialize vm = Normal tt ->
        nullish (ResumeRequest.fetchResponse request) = false ->
        resumptions (trace (snd (SequentialFlow.resume storage vm request w)))
          = resumptions (trace w)
            ++ [(ResumeRequest.vmState request,
                 unwrapped (ResumeRequest.fetchResponse request))])
  /\ (forall fields,
        truthy (assoc "data" fields) = true ->
        unwrapped (JObj fields) = assoc "data" fields)
  /\ (forall fields,
        truthy (assoc "data" fields) = false ->
        unwrapped (JObj fields) = JObj fields)
  /\ unwrapped (JObj [("data", JNum 0)]) = JObj [("data", JNum 0)]
  /\ unwrapped (JObj [("data", JStr "")]) = JObj [("data", JStr "")]
  /\ unwrapped (JObj [("data", JBool false)]) = JObj [("data", JBool false)]
  /\ unwrapped (JObj [("data", JNull)]) = JObj [("data", JNull)]
  /\ (forall S (storage : StorageAdapter S) vm request w stored s' t,
        adapter_load storage (ResumeRequest.taskId request) (store w)
          = (Normal (Some stored), s') ->
        SequentialFetchVM.initialize vm = Normal tt ->
        nullish (ResumeRequest.fetchResponse request) = false ->
        fst (SequentialFlow.resume storage vm request w) = Normal t ->
        let restored :=
          js_or (ResumeRequest.pausedState request)
            (Task.pausedState stored) in
        match SequentialFetchVM.resumeExecution vm
                (if truthy restored then Some restored else None)
                (ResumeRequest.vmState request)
                (unwrapped (ResumeRequest.fetchResponse request)) with
        | Normal (r, paused) =>
            built_from_answer t r paused
            \/ exists e,
                 built_by_handler t e
                 /\ ((exists task s,
                        fst (adapter_save storage task s) = Throw e)
                     \/ (exists s,
                           fst (adapter_delete storage
                                  (ResumeRequest.taskId request) s)
                             = Throw e))
        | Throw e => built_by_handler t e
        end)
  /\ (forall S (storage : StorageAdapter S) vm request w stored s',
        reliable storage ->
        adapter_load storage (ResumeRequest.taskId request) (store w)
          = (Normal (Some stored), s') ->
        SequentialFetchVM.initialize vm = Normal tt ->
        nullish (ResumeRequest.fetchResponse request) = false ->
        let restored :=
          js_or (ResumeRequest.pausedState request)
            (Task.pausedState stored) in
        exists t w',
          SequentialFlow.resume storage vm request w = (Normal t, w')
          /\ match SequentialFetchVM.resumeExecution vm
                     (if truthy restored then Some restored else None)
                     (ResumeRequest.vmState request)
                     (unwrapped (ResumeRequest.fetchResponse request)) with
             | Normal (r, paused) => built_from_answer t r paused
             | Throw e => built_by_handler t e
             end).
Proof.
  repeat apply conj.
  - intros. unfold_flow.
    destruct (adapter_load storage (ResumeRequest.taskId request) (store w))
      as [[[stored|]|e] s'] eqn:E; cbn;
      [| exists []; unfold resumptions; rewrite omap_app; auto ..].
    destruct (SequentialFetchVM.initialize vm) as [[]|e] eqn:Ei; cbn.
    + destruct (get_prop (ResumeRequest.fetchResponse request) "data")
        as [data|e] eqn:Ed; cbn.
      * rewrite (unwrap_agrees _ _ Ed).
        repeat flow_step; unfold resumptions; rewrite ?omap_app; cbn;
          rewrite ?app_nil_r; eexists; split; eauto.
      * repeat flow_step; unfold resumptions; rewrite ?omap_app; cbn;
          rewrite ?app_nil_r; exists []; rewrite app_nil_r; auto.
    + repeat flow_step; unfold resumptions; rewrite ?omap_app; cbn;
        rewrite ?app_nil_r; exists []; rewrite app_nil_r; auto.
  - intros * E Ei Hn. unfold_flow. rewrite E. cbn. rewrite Ei. cbn.
    destruct (get_prop_nullish _ "data" Hn) as [data Ed]. rewrite Ed. cbn.
    rewrite (unwrap_agrees _ _ Ed).
    repeat flow_step; unfold resumptions; rewrite ?omap_app; cbn;
      rewrite ?app_nil_r; reflexivity.
  - intros fields H. cbn. rewrite H. reflexivity.
  - intros fields H. cbn. rewrite H. reflexivity.
  - reflexivity.
  - reflexivity.
  - reflexivity.
  - reflexivity.
  - intros * Hl Hi Hn Ht.
    exact (resume_hands_unwrapped _ _ _ _ _ _ _ _ Hl Hi Hn Ht).
  - intros * (Hs & Hlo & Hd) Hl Hi Hn. cbn zeta. unfold_flow.
    rewrite Hl. cbn. rewrite Hi. cbn.
    destruct (get_prop_nullish _ "data" Hn) as [data Ed]. rewrite Ed. cbn.
    rewrite (unwrap_agrees _ _ Ed).
    destruct (truthy (js_or (ResumeRequest.pausedState request)
                        (Task.pausedState stored))); cbn.
    all: repeat flow_step; try unreliable Hs Hlo Hd.
    all: eexists _, _; (split; [reflexivity|]).
    all: first
      [ unfold built_from_answer; cbn; repeat split; congruence
      | unfold built_by_handler; cbn; repeat split; fail ].
Qed.

(** Task [t2] resumed with [{data: {name: 'Alice'}}]: the engine receives
    [{name: 'Alice'}], and the returned task carries what the engine
    answered to it. *)
Lemma C10_fetch_response_unwrapping_witness :
  resumptions
    (trace (snd (SequentialFlow.resume InMemoryStorage.adapter Samples.vm_pause
                   (Samples.resume_request "t2" Samples.alice)
                   Samples.w_mem_t2)))
  = [(JObj [("pc", JNum 1)], JObj [("name", JStr "Alice")])]
  /\ exists t w',
       SequentialFlow.resume InMemoryStorage.adapter Samples.vm_pause
         (Samples.resume_request "t2" Samples.alice) Samples.w_mem_t2
       = (Normal t, w')
       /\ built_from_answer t
            (EngineResult.mk (JStr "complete") (JObj [("name", JStr "Alice")])
               JUndefined JUndefined JUndefined)
            JNull.
Proof.
  split.
  - apply (proj1 (proj2 C10_fetch_response_unwrapping) _
             InMemoryStorage.adapter Samples.vm_pause
             (Samples.resume_request "t2" Samples.alice) Samples.w_mem_t2
             (Samples.task "t2" Status.paused)
             (InMemoryStorage.save (Samples.task "t2" Status.paused)
                InMemoryStorage.new));
      reflexivity.
  - apply (proj2 (proj2 (proj2 (proj2 (proj2 (proj2 (proj2 (proj2 (proj2
             C10_fetch_response_unwrapping)))))))) _
             InMemoryStorage.adapter Samples.vm_pause
             (Samples.resume_request "t2" Samples.alice) Samples.w_mem_t2
             (Samples.task "t2" Status.paused)
             (InMemoryStorage.save (Samples.task "t2" Status.paused)
                InMemoryStorage.new) in_memory_reliable);
      reflexivity.
Defined.

(** ** Timestamps *)

Lemma quiet_hd (l : list N) : Forall (eq 0%N) l -> hd 0%N l = 0%N.
Proof. intros [|x l' <- _]; reflexivity. Qed.

Lemma quiet_tail (l : list N) : Forall (eq 0%N) l -> Forall (eq 0%N) (tail l).
Proof. intros [|x l' _ H]; [constructor|exact H]. Qed.

Lemma Date_plus_at_least_one now n x :
  at_least_one n -> Date_plus now n = Some x -> now < x.
Proof.
  destruct n as [num den| | |]; cbn; try contradiction.
  intros Hn. destruct (Z.abs (now * Z.pos den + num) <=? max_time * Z.pos den);
    [|discriminate].
  intros [= <-].
  assert (Hd : 0 < Z.pos den) by lia.
  Z.to_euclidean_division_equations. nia.
Qed.

Lemma Date_plus_whole now z x :
  Date_plus now (whole z) = Some x -> x = now + z.
Proof.
  unfold whole, Date_plus.
  destruct (Z.abs (now * 1 + z) <=? max_time * 1); [|discriminate].
  intros [= <-]. rewrite Z.quot_1_r. lia.
Qed.

(** A failure that leaves [execute] is the RangeError of an [expiresAt]
    that is no valid time. *)
Lemma execute_raises_invalid_time S (storage : StorageAdapter S)
    vm request options w e :
  fst (SequentialFlow.execute storage vm request options w) = Throw e ->
  e = invalid_time
  /\ exists k, (k <= 4)%nat /\ expiry_at k options w = None.
Proof.
  unfold expiry_at, nth_reading, ttl_of.
  flow_cases; intros H; try discriminate H; inversion H; subst.
  all: split; [reflexivity|].
  all: first
    [ exists 1%nat; split; [lia|]; cbn; assumption
    | exists 2%nat; split; [lia|]; cbn; assumption
    | exists 3%nat; split; [lia|]; cbn; assumption
    | exists 4%nat; split; [lia|]; cbn; assumption ].
Qed.

(** [execute] returns a task when [expiresAt] is a valid time at the
    readings of the call. *)
Lemma execute_returns_when_valid S (storage : StorageAdapter S)
    vm request options w :
  (forall k, (k <= 4)%nat -> is_Some (expiry_at k options w)) ->
  exists t w',
    SequentialFlow.execute storage vm request options w = (Normal t, w').
Proof.
  intros Hv.
  destruct (SequentialFlow.execute storage vm request options w)
    as [[t|e] w'] eqn:E; [eauto|].
  exfalso.
  destruct (execute_raises_invalid_time S storage vm request options w e)
    as (_ & k & Hk & Hn); [rewrite E; reflexivity|].
  destruct (Hv k Hk) as [x Hx]. congruence.
Qed.




(** ** Engine failures in [execute] *)




(** ** Where the fields of a returned task come from *)

Lemma invariants_of_answer t r paused :
  built_from_answer t r paused ->
  task_invariants t = engine_answer_invariants r paused.
Proof.
  intros (Hs & Hr & He & Hv & Hp & Hf).
  unfold task_invariants, engine_answer_invariants.
  rewrite Hs, Hr, He, Hv, Hp, Hf.
  unfold SequentialFlow.status_of, SequentialFlow.pausedState_of.
  destruct (strict_eq_str (EngineResult.type r) "pause"); [reflexivity|].
  destruct (strict_eq_str (EngineResult.type r) "complete"); cbn.
  - rewrite andb_true_r. reflexivity.
  - rewrite andb_true_r. reflexivity.
Qed.

Lemma invariants_of_handler t e :
  built_by_handler t e ->
  task_invariants t = negb (String.eqb (message e) "").
Proof.
  intros (Hs & He & Hr & Hv & Hp & Hf).
  unfold task_invariants. rewrite Hs, Hr, He, Hv, Hp, Hf. cbn.
  rewrite !andb_true_r. reflexivity.
Qed.

Lemma pausedState_of_answer t r paused :
  built_from_answer t r paused ->
  Task.status t <> Status.paused -> Task.pausedState t = JNull.
Proof.
  intros (Hs & _ & _ & _ & Hp & _) Hne. rewrite Hp.
  revert Hne. rewrite Hs.
  unfold SequentialFlow.status_of, SequentialFlow.pausedState_of.
  destruct (strict_eq_str (EngineResult.type r) "pause"); congruence.
Qed.

Lemma execute_task_origin S (storage : StorageAdapter S)
    vm request options w t w' :
  SequentialFlow.execute storage vm request options w = (Normal t, w') ->
  (exists r paused,
     SequentialFetchVM.executeCode vm (ExecuteRequest.code request)
       = Normal (r, paused)
     /\ built_from_answer t r paused)
  \/ (exists e, built_by_handler t e).
Proof.
  intros H. revert H.
  flow_cases; intros H; inversion H; subst; clear H.
  all: first
    [ left; eexists _, _; split; [first [eassumption|reflexivity]|];
      unfold built_from_answer; cbn; repeat split; congruence
    | right; eexists; unfold built_by_handler; cbn; repeat split; fail
    | right; exists invalid_time; unfold built_by_handler; cbn;
      repeat split; fail ].
Qed.

Lemma resume_task_origin S (storage : StorageAdapter S) vm request w t w' :
  SequentialFlow.resume storage vm request w = (Normal t, w') ->
  (exists slot response r paused,
     SequentialFetchVM.resumeExecution vm slot
       (ResumeRequest.vmState request) response = Normal (r, paused)
     /\ built_from_answer t r paused)
  \/ (exists e, built_by_handler t e).
Proof.
  intros H. revert H.
  flow_cases; intros H; inversion H; subst; clear H.
  all: first
    [ left; eexists _, _, _, _; split; [first [eassumption|reflexivity]|];
      unfold built_from_answer; cbn; repeat split; congruence
    | right; eexists; unfold built_by_handler; cbn; repeat split; fail ].
Qed.




(** ** Raised failures *)

(** A resumption that returns a terminal task ends on a successful
    [delete] of its id. *)
Lemma resume_terminal_deletes S (storage : StorageAdapter S)
    vm request w t w' :
  SequentialFlow.resume storage vm request w = (Normal t, w') ->
  Task.status t = Status.completed \/ Task.status t = Status.error ->
  exists s,
    adapter_delete storage (ResumeRequest.taskId request) s
    = (Normal tt, store w').
Proof.
  intros H Hst. revert H.
  flow_cases; intros H; inversion H; subst; clear H; cbn in *.
  all: try (destruct Hst; discriminate).
  all: eauto.
Qed.

(** The failure an adapter operation raised, read off the context. *)
Ltac adapter_raised :=
  first
    [ reflexivity
    | match goal with
      | H : adapter_load _ _ _ = _ |- _ => rewrite H; reflexivity
      | H : adapter_delete _ _ ?s = (Throw _, _) |- _ =>
          exists s; rewrite H; reflexivity
      end ].

(** What [resume] raises is task-not-found or a failure of the adapter. *)
Lemma resume_raises S (storage : StorageAdapter S) vm request w e :
  fst (SequentialFlow.resume storage vm request w) = Throw e ->
  (e = not_found (ResumeRequest.taskId request)
   /\ fst (adapter_load storage (ResumeRequest.taskId request) (store w))
      = Normal None)
  \/ fst (adapter_load storage (ResumeRequest.taskId request) (store w))
     = Throw e
  \/ exists s,
       fst (adapter_delete storage (ResumeRequest.taskId request) s)
       = Throw e.
Proof.
  flow_cases; intros H; try discriminate H; inversion H; subst; clear H.
  all: first
    [ left; split; [reflexivity|adapter_raised]
    | right; left; adapter_raised
    | right; right; adapter_raised ].
Qed.




(** ** Storage failures *)




(** ** What reaches storage *)

(** What one [execute] call passes to [storage.save]. *)
Lemma execute_saves S (storage : StorageAdapter S) vm request options w :
  let run := SequentialFlow.execute storage vm request options w in
  let saveToStorage := default true (ExecuteOptions.saveToStorage options) in
  exists new,
    saves (trace (snd run)) = saves (trace w) ++ new
    /\ Forall is_paused new
    /\ (length new <= 1)%nat
    /\ (new <> [] <->
        saveToStorage = true
        /\ (exists r paused,
              SequentialFetchVM.initialize vm = Normal tt
              /\ SequentialFetchVM.executeCode vm
                   (ExecuteRequest.code request) = Normal (r, paused)
              /\ SequentialFlow.status_of (EngineResult.type r)
                 = Status.paused)
        /\ is_Some (expiry_at (expiry_index request) options w))
    /\ (forall t, fst run = Normal t -> Task.status t = Status.paused ->
        new = if saveToStorage then [t] else [])
    /\ (forall t, fst run = Normal t -> Task.status t = Status.completed ->
        new = []).
Proof.
  unfold expiry_at, expiry_index, id_given, nth_reading, ttl_of.
  flow_cases.
  all: eexists; split; [observe; reflexivity|]; cbn.
  all: split; [repeat constructor|].
  all: split; [cbn; lia|].
  all: split;
    [split;
     [intros Hne;
      first [exfalso; apply Hne; reflexivity
            | split; [reflexivity|]; split; [eauto 10|]; dates; eauto]
     |intros (Ho & (r' & p' & Hi' & Hx' & Hst') & Hv');
      first [discriminate | congruence
            | exfalso; revert Hv'; dates; intros [? ?]; discriminate]]|].
  all: split; intros t' Ht' Hst'; inversion Ht'; subst; cbn in *;
    first [reflexivity | discriminate | congruence].
Qed.

(** What one [resume] call passes to [storage.save] and [storage.delete]. *)
Lemma resume_saves S (storage : StorageAdapter S) vm request w :
  let run := SequentialFlow.resume storage vm request w in
  exists new_saves new_deletes,
    saves (trace (snd run)) = saves (trace w) ++ new_saves
    /\ deletes (trace (snd run)) = deletes (trace w) ++ new_deletes
    /\ Forall is_paused new_saves
    /\ (forall t, fst run = Normal t -> Task.status t = Status.paused ->
        new_saves = [t] /\ new_deletes = [])
    /\ (forall t, fst run = Normal t ->
        Task.status t = Status.completed \/ Task.status t = Status.error ->
        In (ResumeRequest.taskId request) new_deletes)
    /\ (forall t, fst run = Normal t -> Task.status t = Status.completed ->
        new_saves = []).
Proof.
  flow_cases.
  all: eexists _, _; split; [observe; reflexivity|].
  all: split; [observe; reflexivity|]; cbn.
  all: split; [repeat constructor|].
  all: split;
    [intros t' Ht' Hst'; inversion Ht'; subst; cbn in *;
     first [discriminate | split; reflexivity]|].
  all: split;
    [intros t' Ht' Hst'; inversion Ht'; subst; cbn in *;
     first [destruct Hst'; discriminate | auto]|].
  all: intros t' Ht' Hst'; inversion Ht'; subst; cbn in *;
    first [discriminate | reflexivity].
Qed.

Lemma execute_evolves S (storage : StorageAdapter S) vm request options w :
  evolves storage (store w)
    (store (snd (SequentialFlow.execute storage vm request options w))).
Proof.
  flow_cases; adapter_states; repeat (econstructor; try reflexivity).
Qed.

Lemma resume_evolves S (storage : StorageAdapter S) vm request w :
  evolves storage (store w)
    (store (snd (SequentialFlow.resume storage vm request w))).
Proof.
  flow_cases; adapter_states; repeat (econstructor; try reflexivity).
Qed.

Lemma evolves_trans S (storage : StorageAdapter S) s1 s2 s3 :
  evolves storage s1 s2 -> evolves storage s2 s3 -> evolves storage s1 s3.
Proof.
  intros H12 H23. induction H23; [assumption| |  |]; constructor; assumption.
Qed.

Lemma run_call_evolves S (storage : StorageAdapter S) c w :
  evolves storage (store w) (store (run_call storage c w)).
Proof.
  destruct c; cbn.
  - apply execute_evolves.
  - apply resume_evolves.
  - unfold_flow. flow_step; adapter_states; repeat constructor.
  - unfold_flow. flow_step; adapter_states; repeat constructor.
Qed.

Lemma run_calls_evolves S (storage : StorageAdapter S) cs w :
  evolves storage (store w) (store (run_calls storage cs w)).
Proof.
  revert w. induction cs as [|c cs IH]; intros w; cbn.
  - constructor.
  - eapply evolves_trans; [apply run_call_evolves | apply IH].
Qed.

Lemma in_memory_evolves_paused (s s' : InMemoryStorage.t) :
  evolves InMemoryStorage.adapter s s' ->
  map_Forall (fun _ task => is_paused task) s ->
  map_Forall (fun _ task => is_paused task) s'.
Proof.
  intros H Hs. induction H; cbn.
  - assumption.
  - apply map_Forall_insert_2; assumption.
  - assumption.
  - apply map_Forall_delete. assumption.
Qed.

Lemma run_call_saves S (storage : StorageAdapter S) c w :
  Forall is_paused (saves (trace w)) ->
  Forall is_paused (saves (trace (run_call storage c w))).
Proof.
  intros Hw. destruct c; cbn.
  - destruct (execute_saves S storage vm request options w)
      as (new & -> & Hn & _).
    apply Forall_app; auto.
  - destruct (resume_saves S storage vm request w)
      as (new & nd & -> & _ & Hn & _).
    apply Forall_app; auto.
  - unfold_flow. flow_step; observe; rewrite app_nil_r; exact Hw.
  - unfold_flow. flow_step; observe; rewrite app_nil_r; exact Hw.
Qed.

Lemma run_calls_saves S (storage : StorageAdapter S) cs w :
  Forall is_paused (saves (trace w)) ->
  Forall is_paused (saves (trace (run_calls storage cs w))).
Proof.
  revert w. induction cs as [|c cs IH]; intros w Hw; cbn.
  - exact Hw.
  - apply IH, run_call_saves, Hw.
Qed.



(** * Further properties *)

(** ** The insertion-ordered store of [lib/storage.cjs] *)

Lemma get_denote k (m : JsMap.t) : JsMap.get k m = denote m !! k.
Proof.
  unfold denote. induction m as [|[k' v'] m IH]; cbn; [done|].
  destruct (String.eqb_spec k k') as [->|Hne].
  - by rewrite lookup_insert_eq.
  - by rewrite lookup_insert_ne.
Qed.

Lemma set_denote k v (m : JsMap.t) :
  denote (JsMap.set k v m) = <[k:=v]> (denote m).
Proof.
  unfold denote. induction m as [|[k' v'] m IH]; cbn; [done|].
  destruct (String.eqb_spec k k') as [->|Hne]; cbn.
  - by rewrite insert_insert_eq.
  - rewrite IH. by apply insert_insert_ne.
Qed.

Lemma delete_denote k (m : JsMap.t) :
  distinct_keys m -> denote (JsMap.delete k m) = delete k (denote m).
Proof.
  unfold denote, distinct_keys, JsMap.keys.
  induction m as [|[k' v'] m IH]; cbn; intros Hnd.
  - by rewrite delete_empty.
  - apply NoDup_cons in Hnd as [Hk Hnd].
    destruct (String.eqb_spec k k') as [->|Hne]; cbn.
    + rewrite delete_insert_eq. symmetry. apply delete_id.
      by apply not_elem_of_list_to_map_1.
    + rewrite IH by done. by rewrite delete_insert_ne.
Qed.

Lemma keys_set k v (m : JsMap.t) :
  JsMap.keys (JsMap.set k v m)
  = match JsMap.get k m with
    | Some _ => JsMap.keys m
    | None => JsMap.keys m ++ [k]
    end.
Proof.
  unfold JsMap.keys. induction m as [|[k' v'] m IH]; cbn; [done|].
  destruct (String.eqb_spec k k') as [->|Hne]; cbn; [done|].
  rewrite IH. by destruct (JsMap.get k m).
Qed.

Lemma get_None_keys k (m : JsMap.t) :
  JsMap.get k m = None <-> k ∉ JsMap.keys m.
Proof.
  unfold JsMap.keys. induction m as [|[k' v'] m IH]; cbn.
  - split; [intros _; apply not_elem_of_nil | done].
  - rewrite not_elem_of_cons.
    destruct (String.eqb_spec k k') as [->|Hne].
    + split; [discriminate | intros [Hk _]; by destruct Hk].
    + rewrite IH. split; [by intros H | by intros [_ H]].
Qed.

Lemma keys_delete_sublist k (m : JsMap.t) :
  sublist (JsMap.keys (JsMap.delete k m)) (JsMap.keys m).
Proof.
  unfold JsMap.keys. induction m as [|[k' v'] m IH]; cbn; [done|].
  destruct (String.eqb k k'); cbn.
  - by apply sublist_cons.
  - by apply sublist_skip.
Qed.

Lemma set_distinct k v (m : JsMap.t) :
  distinct_keys m -> distinct_keys (JsMap.set k v m).
Proof.
  unfold distinct_keys. intros Hnd. rewrite keys_set.
  destruct (JsMap.get k m) eqn:E; [done|].
  apply NoDup_app. split; [done|]. split.
  - intros x Hx Hin. apply list_elem_of_singleton in Hin as ->.
    by apply get_None_keys in E.
  - apply NoDup_singleton.
Qed.

Lemma delete_distinct k (m : JsMap.t) :
  distinct_keys m -> distinct_keys (JsMap.delete k m).
Proof.
  unfold distinct_keys. intros Hnd.
  eapply sublist_NoDup; [exact Hnd | apply keys_delete_sublist].
Qed.

Lemma set_keyed (task : Task.t) (m : JsMap.t) :
  keyed_by_id m -> keyed_by_id (JsMap.set (Task.id task) task m).
Proof.
  unfold keyed_by_id. induction m as [|[k' v'] m IH]; cbn; intros H.
  - by repeat constructor.
  - apply Forall_cons in H as [H1 H2].
    destruct (String.eqb (Task.id task) k'); constructor; auto.
Qed.

Lemma delete_keyed k (m : JsMap.t) :
  keyed_by_id m -> keyed_by_id (JsMap.delete k m).
Proof.
  unfold keyed_by_id. induction m as [|[k' v'] m IH]; cbn; intros H; [done|].
  apply Forall_cons in H as [H1 H2].
  destruct (String.eqb k k'); [done|]. constructor; auto.
Qed.

Lemma apply_ops_invariants ops :
  let m := fold_left apply_op ops StorageCjs.InMemoryStorage.new in
  distinct_keys m /\ keyed_by_id m
  /\ denote m = fold_left apply_op_map ops InMemoryStorage.new.
Proof.
  induction ops as [|op ops IH] using rev_ind; cbn.
  - split; [apply NoDup_nil_2|]. split; [constructor|done].
  - rewrite !fold_left_app. cbn. cbn in IH. destruct IH as (Hd & Hk & He).
    destruct op as [task|taskId|]; cbn.
    + split; [by apply set_distinct|]. split; [by apply set_keyed|].
      unfold StorageCjs.InMemoryStorage.save, InMemoryStorage.save.
      by rewrite set_denote, He.
    + split; [by apply delete_distinct|]. split; [by apply delete_keyed|].
      unfold StorageCjs.InMemoryStorage.delete, InMemoryStorage.delete.
      by rewrite delete_denote, He.
    + split; [apply NoDup_nil_2|]. split; [constructor|done].
Qed.

Lemma keyed_keys (m : JsMap.t) :
  keyed_by_id m -> JsMap.keys m = map Task.id (JsMap.values m).
Proof.
  unfold keyed_by_id, JsMap.keys, JsMap.values.
  induction m as [|[k v] m IH]; cbn; intros H; [done|].
  apply Forall_cons in H as [H1 H2]. cbn in H1. rewrite H1, IH; done.
Qed.

Lemma values_set_fresh k v (m : JsMap.t) :
  JsMap.get k m = None ->
  JsMap.values (JsMap.set k v m) = JsMap.values m ++ [v].
Proof.
  unfold JsMap.values. induction m as [|[k' v'] m IH]; cbn; [done|].
  destruct (String.eqb k k'); [discriminate|]. intros H. cbn. by rewrite IH.
Qed.

Lemma values_keyed_elem (m : JsMap.t) (t : Task.t) :
  keyed_by_id m -> t ∈ JsMap.values m <-> (Task.id t, t) ∈ m.
Proof.
  unfold keyed_by_id, JsMap.values. intros Hk. split.
  - intros Hin. apply list_elem_of_In, in_map_iff in Hin as ([k v] & <- & Hin).
    apply list_elem_of_In in Hin.
    rewrite Forall_forall in Hk. specialize (Hk _ Hin). cbn in *. by subst.
  - intros Hin. apply list_elem_of_In. apply in_map_iff.
    exists (Task.id t, t). split; [done|]. by apply list_elem_of_In.
Qed.


(** X13.  [list()] after any sequence of [save], [delete] and [clear] from
    a new store: no two listed tasks share an id, a task is listed exactly
    when [load] of its id answers it, and there are as many listed tasks as
    stored ids. *)
Theorem X13_list_holds_each_stored_task_once :
  forall ops,
    let m := fold_left apply_op ops StorageCjs.InMemoryStorage.new in
    NoDup (map Task.id (StorageCjs.InMemoryStorage.list m))
    /\ (forall t,
          t ∈ StorageCjs.InMemoryStorage.list m
          <-> StorageCjs.InMemoryStorage.load (Task.id t) m = Some t)
    /\ length (StorageCjs.InMemoryStorage.list m) = size (dom (denote m)).
Proof.
  intros ops. cbn.
  destruct (apply_ops_invariants ops) as (Hd & Hk & _). cbn in Hd, Hk.
  set (m := fold_left apply_op ops StorageCjs.InMemoryStorage.new) in *.
  unfold StorageCjs.InMemoryStorage.list, StorageCjs.InMemoryStorage.load.
  split; [|split].
  - rewrite <- keyed_keys by done. exact Hd.
  - intros t. rewrite values_keyed_elem by done. rewrite get_denote.
    unfold denote. apply elem_of_list_to_map. exact Hd.
  - rewrite size_dom. unfold denote. rewrite map_size_list_to_map by exact Hd.
    unfold JsMap.values. apply length_map.
Qed.

(** X14.  Order of [list()], on a store built by [save], [delete] and
    [clear] from a new one: saving a task whose id is absent puts it last;
    saving a task whose id is present keeps the listed ids and their order;
    deleting an id and saving a task under it again puts that task
    last. *)
Theorem X14_list_follows_insertion_order :
  forall ops (t : Task.t),
    let m := fold_left apply_op ops StorageCjs.InMemoryStorage.new in
    (StorageCjs.InMemoryStorage.load (Task.id t) m = None ->
     StorageCjs.InMemoryStorage.list (StorageCjs.InMemoryStorage.save t m)
     = StorageCjs.InMemoryStorage.list m ++ [t])
    /\ (is_Some (StorageCjs.InMemoryStorage.load (Task.id t) m) ->
        map Task.id
          (StorageCjs.InMemoryStorage.list
             (StorageCjs.InMemoryStorage.save t m))
        = map Task.id (StorageCjs.InMemoryStorage.list m))
    /\ StorageCjs.InMemoryStorage.list
         (StorageCjs.InMemoryStorage.save t
            (StorageCjs.InMemoryStorage.delete (Task.id t) m))
       = StorageCjs.InMemoryStorage.list
           (StorageCjs.InMemoryStorage.delete (Task.id t) m) ++ [t].
Proof.
  intros ops t. cbn.
  destruct (apply_ops_invariants ops) as (Hd & Hk & _). cbn in Hd, Hk.
  set (m := fold_left apply_op ops StorageCjs.InMemoryStorage.new) in *.
  unfold StorageCjs.InMemoryStorage.list, StorageCjs.InMemoryStorage.load,
    StorageCjs.InMemoryStorage.save, StorageCjs.InMemoryStorage.delete.
  split; [|split].
  - apply values_set_fresh.
  - intros [old Ho].
    rewrite <- !keyed_keys by auto using set_keyed.
    rewrite keys_set, Ho. reflexivity.
  - apply values_set_fresh. rewrite get_denote, delete_denote by done.
    apply lookup_delete_eq.
Qed.

(** Tasks [t1] and [t2] saved, then [t1] saved again: [t1] stays first. *)
Lemma X14_list_follows_insertion_order_witness :
  map Task.id
    (StorageCjs.InMemoryStorage.list
       (StorageCjs.InMemoryStorage.save (Samples.task "t1" Status.completed)
          (fold_left apply_op
             [OpSave (Samples.task "t1" Status.paused);
              OpSave (Samples.task "t2" Status.paused)]
             StorageCjs.InMemoryStorage.new)))
  = ["t1"; "t2"].
Proof.
  apply (proj1 (proj2 (X14_list_follows_insertion_order
                         [OpSave (Samples.task "t1" Status.paused);
                          OpSave (Samples.task "t2" Status.paused)]
                         (Samples.task "t1" Status.completed)))).
  eexists. reflexivity.
Defined.

(** ** More on [execute] *)

(** Turn boolean string comparisons into equations. *)
Ltac string_facts :=
  repeat match goal with
  | H : String.eqb _ _ = true |- _ => apply String.eqb_eq in H
  | H : String.eqb _ _ = false |- _ => apply String.eqb_neq in H
  end.

(** X1.  Identity of a task that [execute] returns, from the [try] block
    or from the handler: its [code] is the request's; its [id] is the
    request's when that is a non-empty string, and otherwise (absent or
    empty) the generated [task-<Date.now()>-<random>]; its [name] is the
    request's when that is a non-empty string, and otherwise the task's
    id. *)
Theorem X1_execute_task_identity :
  forall S (storage : StorageAdapter S) vm request options w t w',
    SequentialFlow.execute storage vm request options w = (Normal t, w') ->
    Task.code t = ExecuteRequest.code request
    /\ (forall i, ExecuteRequest.id request = Some i -> i <> "" ->
        Task.id t = i)
    /\ (ExecuteRequest.id request = None
        \/ ExecuteRequest.id request = Some "" ->
        Task.id t
        = "task-" +:+ pretty (clock w) +:+ "-" +:+ hd "" (entropy w))
    /\ (forall n, ExecuteRequest.name request = Some n -> n <> "" ->
        Task.name t = n)
    /\ (ExecuteRequest.name request = None
        \/ ExecuteRequest.name request = Some "" ->
        Task.name t = Task.id t).
Proof.
  intros * H. revert H.
  destruct (ExecuteRequest.name request) as [n|] eqn:En.
  all: flow_cases; intros H; inversion H; subst; clear H; cbn.
  all: unfold str_or; rewrite ?En.
  all: repeat flow_step; string_facts; subst.
  all: repeat split; try reflexivity.
  all: try (intros ? [=] ?; subst; congruence).
  all: try (intros [[=]|[=]]; subst; congruence).
  all: try (intros ? [=]).
Qed.

(** [execute({id:'t2', ...})] with no name. *)
Lemma X1_execute_task_identity_witness :
  Task.code Samples.t2_first = "fetch('u/1')"
  /\ Task.id Samples.t2_first = "t2"
  /\ Task.name Samples.t2_first = Task.id Samples.t2_first.
Proof.
  destruct (X1_execute_task_identity _ InMemoryStorage.adapter
              Samples.vm_pause (Samples.request "t2" "fetch('u/1')")
              Samples.no_options Samples.w_mem Samples.t2_first
              (snd (SequentialFlow.execute InMemoryStorage.adapter
                      Samples.vm_pause (Samples.request "t2" "fetch('u/1')")
                      Samples.no_options Samples.w_mem)))
    as (Hc & Hid & _ & _ & Hname).
  { vm_compute. reflexivity. }
  split; [exact Hc|]. split.
  - apply (Hid "t2" eq_refl). intros H. discriminate H.
  - apply Hname. left. reflexivity.
Defined.

(** X2.  The calls of one [execute], in order.  Either [initialize]
    raises and the calls are construct, initialize, dispose; or it succeeds
    and they are construct, initialize, [executeCode] with the request's
    code, then at most one [save], then dispose.  [execute] never calls
    [load], [delete] or [resumeExecution]; without a [save] the adapter
    state is unchanged, and with [saveToStorage] false there is no
    [save]. *)
Theorem X2_execute_call_protocol :
  forall S (storage : StorageAdapter S) vm request options w,
    let w' := snd (SequentialFlow.execute storage vm request options w) in
    let code := ExecuteRequest.code request in
    (trace w' = trace w ++ [EvConstruct; EvInitialize; EvDispose]
     /\ (exists e, SequentialFetchVM.initialize vm = Throw e)
     /\ store w' = store w)
    \/ (trace w'
        = trace w ++ [EvConstruct; EvInitialize; EvExecuteCode code; EvDispose]
        /\ SequentialFetchVM.initialize vm = Normal tt
        /\ store w' = store w)
    \/ (exists task,
          trace w'
          = trace w ++ [EvConstruct; EvInitialize; EvExecuteCode code;
                        EvSave task; EvDispose]
          /\ SequentialFetchVM.initialize vm = Normal tt
          /\ ExecuteOptions.saveToStorage options <> Some false
          /\ store w' = snd (adapter_save storage task (store w))).
Proof.
  intros. subst w' code.
  flow_cases; adapter_states.
  all: first
    [ left; split; [reflexivity|]; split; [eauto|reflexivity]
    | right; left; split; [reflexivity|]; split; reflexivity
    | right; right; eexists; split; [reflexivity|]; split; [reflexivity|];
      split; [congruence|reflexivity] ].
Qed.

(** ** Storage after a call *)

Lemma execute_evolves_at S (storage : StorageAdapter S)
    vm request options w t w' :
  SequentialFlow.execute storage vm request options w = (Normal t, w') ->
  evolves_at storage (Task.id t) (store w) (store w').
Proof.
  intros H. revert H.
  flow_cases; intros H; inversion H; subst; clear H; cbn.
  all: adapter_states; repeat (econstructor; try reflexivity).
Qed.

Lemma resume_evolves_at S (storage : StorageAdapter S) vm request w :
  evolves_at storage (ResumeRequest.taskId request) (store w)
    (store (snd (SequentialFlow.resume storage vm request w))).
Proof.
  flow_cases; adapter_states; repeat (econstructor; try reflexivity).
Qed.

Lemma in_memory_evolves_at_frame id (s s' : InMemoryStorage.t) :
  evolves_at InMemoryStorage.adapter id s s' ->
  forall id', id' <> id ->
    InMemoryStorage.load id' s' = InMemoryStorage.load id' s.
Proof.
  unfold InMemoryStorage.load.
  intros H id' Hne. induction H as [|s' task H IH Hid|s' H IH|s' H IH]; cbn.
  - reflexivity.
  - unfold InMemoryStorage.save. rewrite lookup_insert_ne by congruence.
    exact IH.
  - exact IH.
  - unfold InMemoryStorage.delete. rewrite lookup_delete_ne by congruence.
    exact IH.
Qed.

Lemma execute_paused_saved S (storage : StorageAdapter S)
    vm request options w t w' :
  SequentialFlow.execute storage vm request options w = (Normal t, w') ->
  Task.status t = Status.paused ->
  ExecuteOptions.saveToStorage options <> Some false ->
  adapter_save storage t (store w) = (Normal tt, store w').
Proof.
  intros H Hst Ho. revert H.
  flow_cases; intros H; inversion H; subst; clear H; cbn in *.
  all: first [discriminate | congruence | assumption].
Qed.

Lemma execute_store_cases S (storage : StorageAdapter S)
    vm request options w t w' :
  SequentialFlow.execute storage vm request options w = (Normal t, w') ->
  store w' = store w
  \/ (adapter_save storage t (store w) = (Normal tt, store w')
      /\ Task.status t = Status.paused
      /\ ExecuteOptions.saveToStorage options <> Some false)
  \/ (exists task e, adapter_save storage task (store w) = (Throw e, store w')).
Proof.
  intros H. revert H.
  flow_cases; intros H; inversion H; subst; clear H; cbn in *.
  all: first
    [ left; reflexivity
    | right; left; split; [congruence|]; split; [reflexivity|congruence]
    | right; right; solve [eauto]
    | exfalso; congruence ].
Qed.

Lemma resume_paused_saved S (storage : StorageAdapter S)
    vm request w t w' :
  SequentialFlow.resume storage vm request w = (Normal t, w') ->
  Task.status t = Status.paused ->
  Task.id t = ResumeRequest.taskId request
  /\ exists s, adapter_save storage t s = (Normal tt, store w').
Proof.
  intros H Hst. revert H.
  flow_cases; intros H; inversion H; subst; clear H; cbn in *.
  all: first [discriminate | split; [reflexivity|eauto]].
Qed.

(** X3.  [execute] over the in-memory adapter.  A returned [paused] task
    (with [saveToStorage] on) is what [getTask] of its id answers
    afterwards; a task that is not paused, or any task with [saveToStorage]
    false, leaves the store as it was; and [getTask] of every other id
    answers as before the call. *)
Theorem X3_execute_then_getTask :
  forall vm request options (w : World InMemoryStorage.t) t w',
    SequentialFlow.execute InMemoryStorage.adapter vm request options w
      = (Normal t, w') ->
    (Task.status t = Status.paused ->
     ExecuteOptions.saveToStorage options <> Some false ->
     fst (SequentialFlow.getTask InMemoryStorage.adapter (Task.id t) w')
       = Normal (Some t))
    /\ (Task.status t <> Status.paused
        \/ ExecuteOptions.saveToStorage options = Some false ->
        store w' = store w)
    /\ (forall taskId, taskId <> Task.id t ->
        fst (SequentialFlow.getTask InMemoryStorage.adapter taskId w')
        = fst (SequentialFlow.getTask InMemoryStorage.adapter taskId w)).
Proof.
  intros * H. split; [|split].
  - intros Hst Ho.
    pose proof (execute_paused_saved _ _ _ _ _ _ _ _ H Hst Ho) as Hs.
    cbn in Hs. inversion Hs as [Hw]. unfold_flow. rewrite <- Hw.
    unfold InMemoryStorage.load, InMemoryStorage.save.
    rewrite lookup_insert_eq. reflexivity.
  - intros Hc.
    destruct (execute_store_cases _ _ _ _ _ _ _ _ H)
      as [Hw | [(_ & Hst & Ho) | (task & e & Hs)]].
    + exact Hw.
    + destruct Hc; congruence.
    + cbn in Hs. discriminate Hs.
  - intros taskId Hne. unfold_flow.
    rewrite (in_memory_evolves_at_frame _ _ _
               (execute_evolves_at _ _ _ _ _ _ _ _ H) taskId Hne).
    reflexivity.
Qed.

(** [execute({id:'t2', code:"fetch('u/1')"})] on an engine that pauses, then
    [getTask('t2')]. *)
Lemma X3_execute_then_getTask_witness :
  fst (SequentialFlow.getTask InMemoryStorage.adapter
         (Task.id Samples.t2_first)
         (snd (SequentialFlow.execute InMemoryStorage.adapter Samples.vm_pause
                 (Samples.request "t2" "fetch('u/1')") Samples.no_options
                 Samples.w_mem)))
  = Normal (Some Samples.t2_first).
Proof.
  refine (proj1 (X3_execute_then_getTask Samples.vm_pause
                   (Samples.request "t2" "fetch('u/1')") Samples.no_options
                   Samples.w_mem Samples.t2_first _ _) eq_refl _).
  - vm_compute. reflexivity.
  - intros H. discriminate H.
Defined.

(** X9.  [resume] over the in-memory adapter.  After a returned [paused]
    task, [getTask] of the id answers that task; after a returned task
    that is not paused it answers nothing; a [resume] that raises leaves
    the store as it was; and [getTask] of every other id answers as before
    the call. *)
Theorem X9_resume_then_getTask :
  forall vm request (w : World InMemoryStorage.t),
    let run := SequentialFlow.resume InMemoryStorage.adapter vm request w in
    let taskId := ResumeRequest.taskId request in
    (forall t, fst run = Normal t -> Task.status t = Status.paused ->
     fst (SequentialFlow.getTask InMemoryStorage.adapter taskId (snd run))
       = Normal (Some t))
    /\ (forall t, fst run = Normal t -> Task.status t <> Status.paused ->
        fst (SequentialFlow.getTask InMemoryStorage.adapter taskId (snd run))
          = Normal None)
    /\ (forall e, fst run = Throw e -> store (snd run) = store w)
    /\ (forall other, other <> taskId ->
        fst (SequentialFlow.getTask InMemoryStorage.adapter other (snd run))
        = fst (SequentialFlow.getTask InMemoryStorage.adapter other w)).
Proof.
  intros vm request w run taskId.
  destruct run as [c w'] eqn:Hrun. subst run. cbn [fst snd].
  split; [|split; [|split]].
  - intros t -> Hst.
    destruct (resume_paused_saved _ _ _ _ _ _ _ Hrun Hst) as (Hid & s & Hs).
    cbn in Hs. inversion Hs as [Hw]. unfold_flow. subst taskId.
    unfold InMemoryStorage.load. rewrite <- Hw, <- Hid.
    unfold InMemoryStorage.save. rewrite lookup_insert_eq. reflexivity.
  - intros t -> Hst.
    assert (Hterm : Task.status t = Status.completed
                    \/ Task.status t = Status.error).
    { destruct (resume_task_origin _ _ _ _ _ _ _ Hrun)
        as [(slot & response & r & paused & _ & Hb) | (e & Hb)].
      - destruct Hb as (Hs & _). rewrite Hs in *.
        destruct (status_of_cases (EngineResult.type r)) as [E|[E|E]];
          [congruence|auto|auto].
      - destruct Hb as (Hs & _). auto. }
    destruct (resume_terminal_deletes _ _ _ _ _ _ _ Hrun Hterm) as [s Hs].
    cbn in Hs. inversion Hs as [Hw]. unfold_flow. subst taskId.
    unfold InMemoryStorage.load. rewrite <- Hw.
    unfold InMemoryStorage.delete. rewrite lookup_delete_eq. reflexivity.
  - intros e ->.
    destruct (InMemoryStorage.load taskId (store w)) as [stored|] eqn:Hl.
    + exfalso.
      revert Hrun. subst taskId. unfold_flow. 
      unfold InMemoryStorage.load in *. rewrite Hl. cbn.
      repeat flow_step; intros Hrun; inversion Hrun.
    + revert Hrun. subst taskId. unfold_flow.
      unfold InMemoryStorage.load in *. rewrite Hl. cbn.
      intros Hrun. inversion Hrun. reflexivity.
  - intros other Hne. unfold_flow.
    pose proof (resume_evolves_at _ InMemoryStorage.adapter vm request w)
      as Hev.
    rewrite Hrun in Hev. cbn in Hev.
    rewrite (in_memory_evolves_at_frame _ _ _ Hev other Hne).
    reflexivity.
Qed.

(** Task [t2] resumed on an engine that pauses again, then [getTask('t2')]. *)
Lemma X9_resume_then_getTask_witness :
  fst (SequentialFlow.getTask InMemoryStorage.adapter "t2"
         (snd (SequentialFlow.resume InMemoryStorage.adapter
                 Samples.vm_pause_again
                 (Samples.resume_request "t2" Samples.alice)
                 Samples.w_mem_t2)))
  = Normal (Some Samples.t2_again).
Proof.
  apply (proj1 (X9_resume_then_getTask Samples.vm_pause_again
                  (Samples.resume_request "t2" Samples.alice)
                  Samples.w_mem_t2) Samples.t2_again).
  - vm_compute. reflexivity.
  - reflexivity.
Defined.

(** ** More on [resume] *)

(** X5.  Identity of the task that [resume] returns: its [id] is the
    request's [taskId], its [name] the stored task's, its [code] the
    request's [originalCode] when that is a non-empty string and otherwise
    (absent or empty) the stored task's code. *)
Theorem X5_resume_task_identity :
  forall S (storage : StorageAdapter S) vm request w stored s' t,
    adapter_load storage (ResumeRequest.taskId request) (store w)
      = (Normal (Some stored), s') ->
    fst (SequentialFlow.resume storage vm request w) = Normal t ->
    Task.id t = ResumeRequest.taskId request
    /\ Task.name t = Task.name stored
    /\ (forall c, ResumeRequest.originalCode request = Some c -> c <> "" ->
        Task.code t = c)
    /\ (ResumeRequest.originalCode request = None
        \/ ResumeRequest.originalCode request = Some "" ->
        Task.code t = Task.code stored).
Proof.
  intros * Hl. unfold_flow. rewrite Hl. cbn.
  destruct (ResumeRequest.originalCode request) as [c|] eqn:Ec.
  all: unfold str_or.
  all: repeat flow_step; intros H; inversion H; subst; clear H; cbn.
  all: string_facts; subst.
  all: repeat split; try reflexivity.
  all: try (intros ? [=] ?; subst; congruence).
  all: try (intros [[=]|[=]]; subst; congruence).
  all: try (intros ? [=]).
Qed.

(** Task [t2] resumed without [originalCode]. *)
Lemma X5_resume_task_identity_witness :
  Task.id Samples.t2_again = "t2"
  /\ Task.name Samples.t2_again = Task.name (Samples.task "t2" Status.paused)
  /\ (forall c, ResumeRequest.originalCode
                  (Samples.resume_request "t2" Samples.alice) = Some c ->
      c <> "" -> Task.code Samples.t2_again = c)
  /\ (ResumeRequest.originalCode (Samples.resume_request "t2" Samples.alice)
        = None
      \/ ResumeRequest.originalCode
           (Samples.resume_request "t2" Samples.alice) = Some "" ->
      Task.code Samples.t2_again
      = Task.code (Samples.task "t2" Status.paused)).
Proof.
  apply (X5_resume_task_identity _ InMemoryStorage.adapter
           Samples.vm_pause_again
           (Samples.resume_request "t2" Samples.alice) Samples.w_mem_t2
           (Samples.task "t2" Status.paused) (store Samples.w_mem_t2)
           Samples.t2_again).
  - vm_compute. reflexivity.
  - vm_compute. reflexivity.
Defined.

(** X7.  Of the stored record, [resume] reads [name], [code] and
    [pausedState] only.  Over the in-memory adapter, two runs at the same
    clock whose stores agree outside [taskId] and whose stored tasks agree
    on these three fields complete alike and leave the same store, whatever
    the status, result, error, checkpoint and timestamps of the stored
    tasks. *)
Theorem X7_resume_reads_name_code_pausedState_only :
  forall vm request (w1 w2 : World InMemoryStorage.t) stored1 stored2,
    let taskId := ResumeRequest.taskId request in
    InMemoryStorage.load taskId (store w1) = Some stored1 ->
    InMemoryStorage.load taskId (store w2) = Some stored2 ->
    InMemoryStorage.delete taskId (store w1)
      = InMemoryStorage.delete taskId (store w2) ->
    clock w1 = clock w2 -> ticks w1 = ticks w2 ->
    Task.name stored1 = Task.name stored2 ->
    Task.code stored1 = Task.code stored2 ->
    Task.pausedState stored1 = Task.pausedState stored2 ->
    fst (SequentialFlow.resume InMemoryStorage.adapter vm request w1)
      = fst (SequentialFlow.resume InMemoryStorage.adapter vm request w2)
    /\ store (snd (SequentialFlow.resume InMemoryStorage.adapter vm request w1))
       = store (snd (SequentialFlow.resume InMemoryStorage.adapter vm request
                       w2)).
Proof.
  intros * H1 H2 Hd Hc Ht Hn Hco Hp. subst taskId.
  unfold InMemoryStorage.load, InMemoryStorage.delete in *.
  unfold_flow. unfold InMemoryStorage.load, InMemoryStorage.delete,
    InMemoryStorage.save.
  rewrite H1, H2. cbn. rewrite Hc, Ht, Hn, Hco, Hp.
  repeat flow_step.
  all: split; [reflexivity|]; cbn; try exact Hd.
  all: try (exfalso;
            match goal with
            | H : SequentialFlow.status_of ?ty = Status.running |- _ =>
                destruct (status_of_cases ty) as [E|[E|E]]; congruence
            end).
  all: match goal with
       | |- <[?i:=?x]> ?m1 = <[?i:=?x]> ?m2 =>
           rewrite <- (insert_delete_eq m1), <- (insert_delete_eq m2), Hd;
           reflexivity
       end.
Qed.

(** Task [t2] stored as paused, and stored as completed, resumed alike. *)
Lemma X7_resume_reads_name_code_pausedState_only_witness :
  fst (SequentialFlow.resume InMemoryStorage.adapter Samples.vm_pause_again
         (Samples.resume_request "t2" Samples.alice) Samples.w_mem_t2)
  = fst (SequentialFlow.resume InMemoryStorage.adapter Samples.vm_pause_again
           (Samples.resume_request "t2" Samples.alice)
           AdapterSamples.w_mem_t2_completed)
  /\ store (snd (SequentialFlow.resume InMemoryStorage.adapter
                   Samples.vm_pause_again
                   (Samples.resume_request "t2" Samples.alice)
                   Samples.w_mem_t2))
     = store (snd (SequentialFlow.resume InMemoryStorage.adapter
                     Samples.vm_pause_again
                     (Samples.resume_request "t2" Samples.alice)
                     AdapterSamples.w_mem_t2_completed)).
Proof.
  apply (X7_resume_reads_name_code_pausedState_only Samples.vm_pause_again
           (Samples.resume_request "t2" Samples.alice) Samples.w_mem_t2
           AdapterSamples.w_mem_t2_completed
           (Samples.task "t2" Status.paused)
           (Samples.task "t2" Status.completed)).
  - vm_compute. reflexivity.
  - vm_compute. reflexivity.
  - vm_compute. reflexivity.
  - reflexivity.
  - reflexivity.
  - reflexivity.
  - reflexivity.
  - reflexivity.
Defined.

(** X8.  A [resume] without [fetchResponse] (undefined or null) over the
    in-memory adapter, for a stored task: the engine's [resumeExecution] is
    not called, the call returns a task of status [error] with a message,
    and the stored task is removed. *)
Theorem X8_resume_without_response_discards_task :
  forall vm request (w : World InMemoryStorage.t) stored,
    InMemoryStorage.load (ResumeRequest.taskId request) (store w)
      = Some stored ->
    nullish (ResumeRequest.fetchResponse request) = true ->
    exists t w' msg,
      SequentialFlow.resume InMemoryStorage.adapter vm request w
        = (Normal t, w')
      /\ Task.status t = Status.error
      /\ Task.error t = JStr msg
      /\ InMemoryStorage.load (ResumeRequest.taskId request) (store w') = None
      /\ resumptions (trace w') = resumptions (trace w).
Proof.
  intros * Hl Hn. unfold InMemoryStorage.load in *.
  unfold_flow. unfold InMemoryStorage.load. rewrite Hl. cbn.
  destruct (ResumeRequest.fetchResponse request); try discriminate Hn; cbn.
  all: repeat flow_step; eexists _, _, _; (split; [reflexivity|]); cbn.
  all: split; [reflexivity|]; split; [reflexivity|].
  all: split; [unfold InMemoryStorage.delete; apply lookup_delete_eq|].
  all: unfold resumptions; rewrite ?omap_app; cbn; rewrite ?app_nil_r.
  all: reflexivity.
Qed.

(** Task [t2] resumed with no [fetchResponse]. *)
Lemma X8_resume_without_response_discards_task_witness :
  exists t w' msg,
    SequentialFlow.resume InMemoryStorage.adapter Samples.vm_pause
      (Samples.resume_request "t2" JUndefined) Samples.w_mem_t2
    = (Normal t, w')
    /\ Task.status t = Status.error
    /\ Task.error t = JStr msg
    /\ InMemoryStorage.load "t2" (store w') = None
    /\ resumptions (trace w') = resumptions (trace Samples.w_mem_t2).
Proof.
  apply (X8_resume_without_response_discards_task Samples.vm_pause
           (Samples.resume_request "t2" JUndefined) Samples.w_mem_t2
           (Samples.task "t2" Status.paused)).
  - vm_compute. reflexivity.
  - reflexivity.
Defined.

(** X6.  The engine calls of one [resume] that found its task, in order:
    construct, initialize, and when [initialize] succeeds: a write of the
    [paused] slot exactly when the request's [pausedState], or failing that
    (falsy) the stored task's, is truthy, with that value; then
    [resumeExecution], with the request's [vmState] and the unwrapped
    response, exactly when the response is neither undefined nor null; then
    dispose.  [resume] never calls [executeCode]. *)
Theorem X6_resume_engine_protocol :
  forall S (storage : StorageAdapter S) vm request w stored s',
    adapter_load storage (ResumeRequest.taskId request) (store w)
      = (Normal (Some stored), s') ->
    let restored :=
      js_or (ResumeRequest.pausedState request) (Task.pausedState stored) in
    let response := ResumeRequest.fetchResponse request in
    exists evs,
      trace (snd (SequentialFlow.resume storage vm request w)) = trace w ++ evs
      /\ engine_events evs
         = EvConstruct :: EvInitialize
           :: match SequentialFetchVM.initialize vm with
              | Throw _ => [EvDispose]
              | Normal _ =>
                  (if truthy restored then [EvSetPaused restored] else [])
                  ++ (if nullish response then []
                      else [EvResumeExecution (ResumeRequest.vmState request)
                              (unwrapped response)])
                  ++ [EvDispose]
              end.
Proof.
  intros * Hl restored response. subst restored response.
  unfold_flow. rewrite Hl. cbn.
  destruct (SequentialFetchVM.initialize vm) as [[]|e0] eqn:Ei; cbn.
  - destruct (get_prop (ResumeRequest.fetchResponse request) "data")
      as [data|e] eqn:Ed; cbn.
    + rewrite (unwrap_agrees _ _ Ed).
      assert (Hn : nullish (ResumeRequest.fetchResponse request) = false).
      { destruct (ResumeRequest.fetchResponse request); cbn in *;
          first [reflexivity | discriminate]. }
      rewrite Hn.
      repeat flow_step; rewrite <- ?app_assoc; cbn;
        (eexists; split; [reflexivity|]); reflexivity.
    + assert (Hn : nullish (ResumeRequest.fetchResponse request) = true).
      { destruct (ResumeRequest.fetchResponse request); cbn in *;
          first [reflexivity | discriminate]. }
      rewrite Hn.
      repeat flow_step; rewrite <- ?app_assoc; cbn;
        (eexists; split; [reflexivity|]); reflexivity.
  - repeat flow_step; rewrite <- ?app_assoc; cbn;
      (eexists; split; [reflexivity|]); reflexivity.
Qed.

(** Task [t2] resumed with [{data: {name: 'Alice'}}] on a store that refuses
    writes. *)
Lemma X6_resume_engine_protocol_witness :
  exists evs,
    trace (snd (SequentialFlow.resume Samples.read_only Samples.vm_pause
                  (Samples.resume_request "t2" Samples.alice)
                  Samples.w_custom))
    = trace Samples.w_custom ++ evs
    /\ engine_events evs
       = [EvConstruct; EvInitialize;
          EvSetPaused (JObj [("awaiting", JNum 1)]);
          EvResumeExecution (JObj [("pc", JNum 1)])
            (JObj [("name", JStr "Alice")]);
          EvDispose].
Proof.
  apply (X6_resume_engine_protocol _ Samples.read_only Samples.vm_pause
           (Samples.resume_request "t2" Samples.alice) Samples.w_custom
           (Samples.task "t2" Status.paused) tt).
  reflexivity.
Defined.

Lemma in_memory_evolves_keyed (s s' : InMemoryStorage.t) :
  evolves InMemoryStorage.adapter s s' ->
  map_Forall (fun k task => Task.id task = k) s ->
  map_Forall (fun k task => Task.id task = k) s'.
Proof.
  intros H Hs. induction H; cbn.
  - assumption.
  - apply map_Forall_insert_2; [reflexivity|assumption].
  - assumption.
  - apply map_Forall_delete. assumption.
Qed.

(** X10.  Over any sequence of [execute], [resume], [getTask] and
    [deleteTask] calls on the in-memory adapter, every record stays stored
    under the id of its task. *)
Theorem X10_stored_under_own_id :
  forall cs (w : World InMemoryStorage.t),
    map_Forall (fun k task => Task.id task = k) (store w) ->
    map_Forall (fun k task => Task.id task = k)
      (store (run_calls InMemoryStorage.adapter cs w)).
Proof.
  intros cs w H.
  eapply in_memory_evolves_keyed; [apply run_calls_evolves | exact H].
Qed.

(** A pause and a resumption that pauses again, from a new store. *)
Lemma X10_stored_under_own_id_witness :
  map_Forall (fun k task => Task.id task = k)
    (store
       (run_calls InMemoryStorage.adapter
          [CallExecute Samples.vm_pause
             (Samples.request "t2" "fetch('u/1')") Samples.no_options;
           CallResume Samples.vm_pause_again
             (Samples.resume_request "t2" Samples.alice)]
          Samples.w_mem)).
Proof.
  apply (X10_stored_under_own_id
           [CallExecute Samples.vm_pause
              (Samples.request "t2" "fetch('u/1')") Samples.no_options;
            CallResume Samples.vm_pause_again
              (Samples.resume_request "t2" Samples.alice)]
           Samples.w_mem).
  apply map_Forall_empty.
Defined.

(** X4.  Every adapter call that [execute] makes is about the id of the
    task it returns, and every adapter call that [resume] makes is about
    the request's [taskId]: a [save] of a task with that id, or a [load] or
    [delete] of that id. *)
Theorem X4_storage_calls_concern_one_id :
  (forall S (storage : StorageAdapter S) vm request options w t w',
     SequentialFlow.execute storage vm request options w = (Normal t, w') ->
     exists evs,
       trace w' = trace w ++ evs
       /\ Forall (fun ev => event_id ev = None
                           \/ event_id ev = Some (Task.id t)) evs)
  /\ (forall S (storage : StorageAdapter S) vm request w,
        exists evs,
          trace (snd (SequentialFlow.resume storage vm request w))
            = trace w ++ evs
          /\ Forall (fun ev => event_id ev = None
                              \/ event_id ev
                                 = Some (ResumeRequest.taskId request)) evs).
Proof.
  split.
  - intros * H. revert H.
    flow_cases; intros H; inversion H; subst; clear H; cbn.
    all: eexists; split; [reflexivity|].
    all: repeat (apply List.Forall_cons; [cbn; auto|]); apply List.Forall_nil.
  - intros. flow_cases.
    all: eexists; split; [reflexivity|].
    all: repeat (apply List.Forall_cons; [cbn; auto|]); apply List.Forall_nil.
Qed.

(** The same [execute]: its one storage call is the [save] of [t2]. *)
Lemma X4_storage_calls_concern_one_id_witness :
  exists evs,
    trace (snd (SequentialFlow.execute InMemoryStorage.adapter Samples.vm_pause
                  (Samples.request "t2" "fetch('u/1')") Samples.no_options
                  Samples.w_mem))
    = trace Samples.w_mem ++ evs
    /\ Forall (fun ev => event_id ev = None
                        \/ event_id ev = Some (Task.id Samples.t2_first)) evs.
Proof.
  apply (proj1 X4_storage_calls_concern_one_id _ InMemoryStorage.adapter
           Samples.vm_pause (Samples.request "t2" "fetch('u/1')")
           Samples.no_options Samples.w_mem Samples.t2_first
           (snd (SequentialFlow.execute InMemoryStorage.adapter
                   Samples.vm_pause (Samples.request "t2" "fetch('u/1')")
                   Samples.no_options Samples.w_mem))).
  vm_compute. reflexivity.
Defined.

(** X11.  The [CustomStorage] base class under the orchestrator.  Every
    [resume] raises "load() method must be implemented" before any engine
    is created.  [execute] returns a [paused] task only when
    [saveToStorage] is false; otherwise an engine that pauses yields a task
    of status [error]: its message is "save() method must be implemented"
    when the [expiresAt] of the [try] block is a valid time, so that
    [save] is reached, and "Invalid time value" when it is not. *)
Theorem X11_custom_storage_is_unusable :
  (forall vm request w,
     SequentialFlow.resume CustomStorage.adapter vm request w
     = (Throw (mkError "load() method must be implemented"),
        mkWorld (store w) (clock w) (ticks w) (entropy w)
          (trace w ++ [EvLoad (ResumeRequest.taskId request)])))
  /\ (forall vm request options w t w',
        SequentialFlow.execute CustomStorage.adapter vm request options w
          = (Normal t, w') ->
        Task.status t = Status.paused ->
        ExecuteOptions.saveToStorage options = Some false)
  /\ (forall vm request options w t w' r paused,
        SequentialFlow.execute CustomStorage.adapter vm request options w
          = (Normal t, w') ->
        SequentialFetchVM.initialize vm = Normal tt ->
        SequentialFetchVM.executeCode vm (ExecuteRequest.code request)
          = Normal (r, paused) ->
        SequentialFlow.status_of (EngineResult.type r) = Status.paused ->
        ExecuteOptions.saveToStorage options <> Some false ->
        Task.status t = Status.error
        /\ Task.error t
           = JStr (match expiry_at (expiry_index request) options w with
                   | Some _ => "save() method must be implemented"
                   | None => "Invalid time value"
                   end)).
Proof.
  split; [|split].
  - intros. reflexivity.
  - intros * H Hst. revert H. unfold_flow.
    repeat flow_step; intros H; inversion H; subst; clear H; cbn in *.
    all: first [discriminate | reflexivity].
  - intros * H Hi Hx Hs Ho. revert H.
    unfold expiry_at, expiry_index, id_given, nth_reading, ttl_of.
    unfold_flow.
    rewrite Hi; cbn. rewrite Hx; cbn. rewrite Hs; cbn.
    repeat flow_step; intros H; inversion H; subst; clear H; cbn in *.
    all: try congruence.
    all: repeat match goal with
           | H : Date_plus _ _ = _ |- _ => rewrite H; clear H
           end.
    all: split; reflexivity.
Qed.

(** [execute] over [CustomStorage] returns a paused task with
    [saveToStorage: false]. *)
Lemma X11_custom_storage_is_unusable_witness :
  ExecuteOptions.saveToStorage AdapterSamples.unsaved_options = Some false.
Proof.
  apply (proj1 (proj2 X11_custom_storage_is_unusable) Samples.vm_pause
           (Samples.request "t2" "fetch('u/1')")
           AdapterSamples.unsaved_options Samples.w_custom
           AdapterSamples.t2_unsaved
           (snd (SequentialFlow.execute CustomStorage.adapter Samples.vm_pause
                   (Samples.request "t2" "fetch('u/1')")
                   AdapterSamples.unsaved_options Samples.w_custom))).
  - vm_compute. reflexivity.
  - reflexivity.
Defined.

(** The second message occurs: with a [ttl] of -8,640,000,001,002 ms at
    time 1000 and a clock that advances, the [expiresAt] of the [try]
    block is no valid time, the one of the handler, taken 2 ms later, is
    valid, and the task that [execute] returns carries the RangeError's
    message; [save] was not called. *)
Example custom_storage_invalid_time :
  exists t,
    fst (SequentialFlow.execute CustomStorage.adapter Samples.vm_pause
           (Samples.request "t2" "fetch('u/1')") AdapterSamples.past_options
           AdapterSamples.w_custom_ticking) = Normal t
    /\ Task.status t = Status.error
    /\ Task.error t = JStr "Invalid time value"
    /\ Task.expiresAt t = Some (-8639999999999999)
    /\ saves (trace (snd (SequentialFlow.execute CustomStorage.adapter
                            Samples.vm_pause
                            (Samples.request "t2" "fetch('u/1')")
                            AdapterSamples.past_options
                            AdapterSamples.w_custom_ticking))) = [].
Proof.
  eexists. split; [vm_compute; reflexivity|].
  split; [reflexivity|]. split; [reflexivity|]. split; [reflexivity|].
  vm_compute. reflexivity.
Qed.

(** ** The Redis and SQL adapters *)

Lemma ceil_div_bounds x :
  1000 * (ceil_div x 1000 - 1) < x <= 1000 * ceil_div x 1000.
Proof. unfold ceil_div. Z.to_euclidean_division_equations. lia. Qed.

(** X15.  [RedisStorage.save] issues one [setex] under the key
    [keyPrefix + task.id] with the serialized task.  Its expiry in seconds
    is 7200 when the task has no [expiresAt]; otherwise it is the time left
    until [expiresAt] rounded up to whole seconds, so the key outlives
    [expiresAt] by less than a second, it is zero or negative exactly when
    the task has already expired, and for a task given the default ttl at a
    reading not after the save it is at most 7200. *)
Theorem X15_redis_expiry_follows_expiresAt :
  forall R (redis : RedisStorage.Client R) keyPrefix stringify now task r,
  exists ttl,
    RedisStorage.save redis keyPrefix stringify now task r
    = RedisStorage.setex redis (keyPrefix +:+ Task.id task) ttl
        (stringify task) r
    /\ (Task.expiresAt task = None -> ttl = 7200)
    /\ (forall expiresAt, Task.expiresAt task = Some expiresAt ->
        1000 * (ttl - 1) < expiresAt - now <= 1000 * ttl
        /\ (ttl <= 0 <-> expiresAt <= now)
        /\ (forall read, read <= now ->
            expiresAt = read + SequentialFlow.default_ttl -> ttl <= 7200)).
Proof.
  intros. unfold RedisStorage.save, RedisStorage.getKey.
  eexists. split; [reflexivity|].
  destruct (Task.expiresAt task) as [e|]; split; try discriminate.
  - intros e' [= <-].
    pose proof (ceil_div_bounds (e - now)) as Hb.
    split; [exact Hb|]. split; [lia|].
    intros read Hr ->. unfold SequentialFlow.default_ttl in *. lia.
  - intros _. reflexivity.
Qed.

(** Task [t2], expiring at 7,201,001, saved at time 1500 with the default
    prefix. *)
Lemma X15_redis_expiry_follows_expiresAt_witness :
  exists ttl,
    RedisStorage.save AdapterSamples.recording_redis
      RedisStorage.default_keyPrefix AdapterSamples.label 1500
      Samples.t2_first []
    = (Normal tt, [("seq-flow:t2", ttl, "{t2}")])
    /\ 1000 * (ttl - 1) < 7201001 - 1500 <= 1000 * ttl.
Proof.
  destruct (X15_redis_expiry_follows_expiresAt _ AdapterSamples.recording_redis
              RedisStorage.default_keyPrefix AdapterSamples.label 1500
              Samples.t2_first []) as (ttl & Hs & _ & He).
  exists ttl. split; [exact Hs|]. apply (He 7201001 eq_refl).
Defined.

Lemma append_injective (p a b : string) : p +:+ a = p +:+ b -> a = b.
Proof. induction p as [|c p IH]; cbn; [auto|]. intros [= H]. auto. Qed.

(** X16.  Under one key prefix, [RedisStorage.getKey] gives different keys
    to different task ids. *)
Theorem X16_redis_keys_do_not_collide :
  forall keyPrefix a b,
    a <> b ->
    RedisStorage.getKey keyPrefix a <> RedisStorage.getKey keyPrefix b.
Proof.
  intros keyPrefix a b Hne Heq. apply Hne.
  exact (append_injective _ _ _ Heq).
Qed.

(** The keys of [t1] and [t2] under the default prefix. *)
Lemma X16_redis_keys_do_not_collide_witness :
  RedisStorage.getKey RedisStorage.default_keyPrefix "t1"
  <> RedisStorage.getKey RedisStorage.default_keyPrefix "t2".
Proof.
  apply (X16_redis_keys_do_not_collide RedisStorage.default_keyPrefix
           "t1" "t2").
  intros H. discriminate H.
Defined.

Lemma occurrences_app c (s1 s2 : string) :
  occurrences c (s1 +:+ s2) = (occurrences c s1 + occurrences c s2)%nat.
Proof.
  induction s1 as [|c' s1 IH]; [reflexivity|].
  change (String c' s1 +:+ s2) with (String c' (s1 +:+ s2)).
  cbn [occurrences]. rewrite IH. lia.
Qed.

(** X17.  The statements of [SQLStorage], for a table name without [?]:
    the text of [save] has six placeholders and is sent with six
    parameters, those of [load] and [delete] have one placeholder and are
    sent with the task id alone; the texts depend on the table name only,
    never on the task.  [load] answers a null-equivalent for a null or
    empty row set and otherwise parses the first row's [data]; a failure
    of the query function comes back as it is. *)
Theorem X17_sql_placeholders_match_parameters :
  forall tableName,
    occurrences placeholder tableName = 0%nat ->
    (exists sql,
       occurrences placeholder sql = 6%nat
       /\ forall Q query stringify (task : Task.t) (q : Q),
            exists params,
              length params = 6%nat
              /\ SQLStorage.save query tableName stringify task q
                 = match query sql params q with
                   | (Normal _, q') => (Normal tt, q')
                   | (Throw e, q') => (Throw e, q')
                   end)
    /\ (exists sql,
          occurrences placeholder sql = 1%nat
          /\ forall Q query parse taskId (q : Q),
               fst (SQLStorage.load query tableName parse taskId q)
               = match fst (query sql [SQLStorage.PText taskId] q) with
                 | Normal (Some (row :: _)) => parse (SQLStorage.data row)
                 | Normal _ => Normal None
                 | Throw e => Throw e
                 end)
    /\ (exists sql,
          occurrences placeholder sql = 1%nat
          /\ forall Q query taskId (q : Q),
               SQLStorage.delete query tableName taskId q
               = match query sql [SQLStorage.PText taskId] q with
                 | (Normal _, q') => (Normal tt, q')
                 | (Throw e, q') => (Throw e, q')
                 end).
Proof.
  intros tableName Hq. split; [|split].
  - exists (SQLStorage.save_sql tableName). split.
    + unfold SQLStorage.save_sql. rewrite !occurrences_app, Hq. reflexivity.
    + intros. eexists. split; [|reflexivity]. reflexivity.
  - exists (SQLStorage.load_sql tableName). split.
    + unfold SQLStorage.load_sql. rewrite !occurrences_app, Hq. reflexivity.
    + intros. unfold SQLStorage.load.
      destruct (query (SQLStorage.load_sql tableName)
                  [SQLStorage.PText taskId] q) as [[[[|row rows]|]|e] q'];
        reflexivity.
  - exists (SQLStorage.delete_sql tableName). split.
    + unfold SQLStorage.delete_sql. rewrite !occurrences_app, Hq. reflexivity.
    + intros. reflexivity.
Qed.

(** The [DELETE] statement for the default table name. *)
Lemma X17_sql_placeholders_match_parameters_witness :
  exists sql,
    occurrences placeholder sql = 1%nat
    /\ forall Q query taskId (q : Q),
         SQLStorage.delete query (SQLStorage.tableName_of None) taskId q
         = match query sql [SQLStorage.PText taskId] q with
           | (Normal _, q') => (Normal tt, q')
           | (Throw e, q') => (Throw e, q')
           end.
Proof.
  apply (proj2 (proj2 (X17_sql_placeholders_match_parameters
                         (SQLStorage.tableName_of None) eq_refl))).
Defined.

